(** * IoMT device authentication protocol: session state machine and
      message protection

    A shallow embedding of
    [IoMT_Blockchain_Security/blockchain/auth_protocol.py] and of
    [IoMT_Blockchain_Security/auth_protocol_fallback.py], and the
    properties of the handshake and of the message layer proved on it.

    Python values are modelled as follows.
    - [bytes] is a list of [Byte.byte].
    - [str] is a Rocq [string], a text by its bytes; [s.encode()] is the
      list of these bytes.
    - The dictionaries the methods return are association lists from
      string keys to string values, in the order the source writes them.
    - [datetime.now()] and [get_random_bytes] read from an operating
      system record that holds an unbounded supply of clock readings and
      of random bytes together with a cursor into each.
    - A method of [DeviceAuthenticationSession] is a computation over the
      pair of the session object and the operating system; it either
      returns a value or raises, and in both cases yields the updated pair.

    What the code imports is modelled here as well: SHA-256 and HMAC are
    written out from FIPS 180-4 and RFC 2104 and checked against published
    test vectors, [bytes.hex], [bytes.fromhex], PKCS#7 padding and the CBC
    mode from their definitions. Two things stay parameters: the AES
    transformation of one block, of which the round trip assumes that
    decryption inverts encryption, and the text [str(e)] of a library
    exception, which only reaches the event log. *)

From Stdlib Require Import Strings.String Strings.Ascii Strings.Byte.
From Stdlib Require Import NArith Arith Bool Lia List.
Import ListNotations.

Set Implicit Arguments.

Definition bytes := list byte.

(** ** Byte-level helpers *)

Definition byte_of_N (n : N) : byte :=
  match Byte.of_N (n mod 256) with
  | Some b => b
  | None => x00
  end.

(** Big-endian value of a byte string. *)
Definition be_to_N (l : bytes) : N :=
  fold_left (fun acc b => (acc * 256 + Byte.to_N b)%N) l 0%N.

(** The [len] low-order bytes of [n], most significant first. *)
Fixpoint N_to_be (len : nat) (n : N) : bytes :=
  match len with
  | O => []
  | S k => N_to_be k (n / 256) ++ [byte_of_N n]
  end.

(** [chunk n l] cuts [l] into consecutive pieces of [n] elements; the last
    piece is shorter when [n] does not divide the length. *)
Fixpoint chunk_fuel {A : Type} (fuel n : nat) (l : list A) : list (list A) :=
  match fuel, l with
  | S f, _ :: _ => firstn n l :: chunk_fuel f n (skipn n l)
  | _, _ => []
  end.

Definition chunk {A : Type} (n : nat) (l : list A) : list (list A) :=
  chunk_fuel (length l) n l.

Definition xor_byte (x y : byte) : byte :=
  byte_of_N (N.lxor (Byte.to_N x) (Byte.to_N y)).

(** Bytewise exclusive or; as [strxor] it is only used on equal lengths. *)
Fixpoint xor_bytes (x y : bytes) : bytes :=
  match x, y with
  | a :: x', b :: y' => xor_byte a b :: xor_bytes x' y'
  | _, _ => []
  end.

(** ** SHA-256 (FIPS 180-4), as [Crypto.Hash.SHA256] computes it *)

Module SHA256.
Local Open Scope N_scope.

Definition digest_size : nat := 32.
Definition block_size : nat := 64.

Definition mask32 : N := 0xFFFFFFFF.
Definition add32 (x y : N) : N := N.land (x + y) mask32.
Definition rotr (n x : N) : N :=
  N.lor (N.shiftr x n) (N.land (N.shiftl x (32 - n)) mask32).
Definition shr (n x : N) : N := N.shiftr x n.

Definition Ch (x y z : N) : N :=
  N.lxor (N.land x y) (N.land (N.lxor x mask32) z).
Definition Maj (x y z : N) : N :=
  N.lxor (N.lxor (N.land x y) (N.land x z)) (N.land y z).
Definition Sigma0 (x : N) : N :=
  N.lxor (N.lxor (rotr 2 x) (rotr 13 x)) (rotr 22 x).
Definition Sigma1 (x : N) : N :=
  N.lxor (N.lxor (rotr 6 x) (rotr 11 x)) (rotr 25 x).
Definition sigma0 (x : N) : N :=
  N.lxor (N.lxor (rotr 7 x) (rotr 18 x)) (shr 3 x).
Definition sigma1 (x : N) : N :=
  N.lxor (N.lxor (rotr 17 x) (rotr 19 x)) (shr 10 x).

(** The constants are the first 32 bits of the fractional parts of the
    square roots (initial hash value) and cube roots (round constants) of
    the first primes. *)
Definition primes64 : list N :=
  [2; 3; 5; 7; 11; 13; 17; 19; 23; 29; 31; 37; 41; 43; 47; 53;
   59; 61; 67; 71; 73; 79; 83; 89; 97; 101; 103; 107; 109; 113; 127; 131;
   137; 139; 149; 151; 157; 163; 167; 173; 179; 181; 191; 193; 197; 199;
   211; 223; 227; 229; 233; 239; 241; 251; 257; 263; 269; 271; 277; 281;
   283; 293; 307; 311].

Fixpoint cube_root_bits (i : nat) (n r : N) : N :=
  match i with
  | O => r
  | S j =>
      let c := r + 2 ^ N.of_nat j in
      cube_root_bits j n (if c * c * c <=? n then c else r)
  end.

Definition frac_sqrt32 (p : N) : N := N.land (N.sqrt (p * 2 ^ 64)) mask32.
Definition frac_cbrt32 (p : N) : N :=
  N.land (cube_root_bits 36 (p * 2 ^ 96) 0) mask32.

Definition K : list N := Eval vm_compute in map frac_cbrt32 primes64.

Record hstate : Type :=
  H8 { ha : N; hb : N; hc : N; hd : N; he : N; hf : N; hg : N; hh : N }.

Definition H0 : hstate :=
  Eval vm_compute in
    match map frac_sqrt32 (firstn 8 primes64) with
    | [a; b; c; d; e; f; g; h] => H8 a b c d e f g h
    | _ => H8 0 0 0 0 0 0 0 0
    end.

(** Padding: a 1 bit, zero bits up to 56 modulo 64 bytes, then the
    bit length as a 64-bit big-endian number. *)
Definition pad_message (m : bytes) : bytes :=
  let l := length m in
  m ++ x80 :: repeat x00 ((119 - l mod 64) mod 64)
    ++ N_to_be 8 (8 * N.of_nat l).

(** Message schedule: [n] more words after the ones in [ws]. *)
Fixpoint extend (n : nat) (ws : list N) : list N :=
  match n with
  | O => ws
  | S k =>
      let t := length ws in
      let w :=
        add32 (add32 (add32 (sigma1 (nth (t - 2) ws 0)) (nth (t - 7) ws 0))
                     (sigma0 (nth (t - 15) ws 0)))
              (nth (t - 16) ws 0) in
      extend k (ws ++ [w])
  end.

Definition round (s : hstate) (kw : N * N) : hstate :=
  let '(k, w) := kw in
  let T1 :=
    add32 (add32 (add32 (add32 (hh s) (Sigma1 (he s)))
                        (Ch (he s) (hf s) (hg s))) k) w in
  let T2 := add32 (Sigma0 (ha s)) (Maj (ha s) (hb s) (hc s)) in
  H8 (add32 T1 T2) (ha s) (hb s) (hc s) (add32 (hd s) T1)
     (he s) (hf s) (hg s).

Definition compress (H : hstate) (block : bytes) : hstate :=
  let W := extend 48 (map be_to_N (chunk 4 block)) in
  let s := fold_left round (combine K W) H in
  H8 (add32 (ha H) (ha s)) (add32 (hb H) (hb s)) (add32 (hc H) (hc s))
     (add32 (hd H) (hd s)) (add32 (he H) (he s)) (add32 (hf H) (hf s))
     (add32 (hg H) (hg s)) (add32 (hh H) (hh s)).

Definition sha256 (m : bytes) : bytes :=
  let H := fold_left compress (chunk 64 (pad_message m)) H0 in
  flat_map (N_to_be 4)
    [ha H; hb H; hc H; hd H; he H; hf H; hg H; hh H].

(** The hash object: [SHA256.new(data)] followed by [.digest()]. *)
Definition new (data : bytes) : bytes := data.
Definition digest (h : bytes) : bytes := sha256 h.
End SHA256.

(** ** HMAC (RFC 2104) over SHA-256, as [Crypto.Hash.HMAC] computes it *)

Module HMAC.
Record t : Type := mk { key : bytes; msg : bytes }.

Definition ipad : byte := x36.
Definition opad : byte := x5c.

(** A key longer than a block is hashed first; the key is then filled
    with zero bytes to the block size. *)
Definition block_key (k : bytes) : bytes :=
  let k' :=
    if SHA256.block_size <? length k then SHA256.sha256 k else k in
  k' ++ repeat x00 (SHA256.block_size - length k').

Definition hmac (k m : bytes) : bytes :=
  let k0 := block_key k in
  let inner := SHA256.sha256 (map (xor_byte ipad) k0 ++ m) in
  SHA256.sha256 (map (xor_byte opad) k0 ++ inner).

(** [HMAC.new(key, digestmod=SHA256)], [.update(data)], [.digest()]. *)
Definition new (k : bytes) : t := mk k [].
Definition update (h : t) (data : bytes) : t := mk (key h) (msg h ++ data).
Definition digest (h : t) : bytes := hmac (key h) (msg h).
End HMAC.


(** ** Outcomes of Python code: a returned value or a raised exception *)

(** The exceptions the modelled library calls raise; all are [ValueError]s,
    named after the place that raises them. *)
Inductive exn : Type :=
| ValueError_fromhex (position : nat)
| ValueError_AES_key_length (n : nat)
| ValueError_IV_length
| ValueError_CBC_alignment
| ValueError_unpad_empty
| ValueError_unpad_not_padded
| ValueError_unpad_padding
| ValueError_unpad_pkcs7.

Inductive result (A : Type) : Type :=
| Return (a : A)
| Raise (e : exn).

Arguments Return {A} a.
Arguments Raise {A} e.

(** A computation over a mutable state [S]. *)
Definition M (S A : Type) : Type := S -> result A * S.

Definition ret {S A : Type} (a : A) : M S A := fun s => (Return a, s).

Definition raise {S A : Type} (e : exn) : M S A := fun s => (Raise e, s).

Definition bind {S A B : Type} (m : M S A) (k : A -> M S B) : M S B :=
  fun s =>
    match m s with
    | (Return a, s') => k a s'
    | (Raise e, s') => (Raise e, s')
    end.

(** [try: body except Exception as e: handler e]. *)
Definition try_except {S A : Type} (body : M S A) (handler : exn -> M S A)
  : M S A :=
  fun s =>
    match body s with
    | (Return a, s') => (Return a, s')
    | (Raise e, s') => handler e s'
    end.

(** A call that returns or raises without touching the state. *)
Definition lift_result {S A : Type} (r : result A) : M S A := fun s => (r, s).

Declare Scope py_scope.
Delimit Scope py_scope with py.
Notation "x <- c1 ;; c2" := (bind c1 (fun x => c2))
  (at level 61, c1 at next level, right associativity) : py_scope.
Notation "' pat <- c1 ;; c2" := (bind c1 (fun x => match x with pat => c2 end))
  (at level 61, pat pattern, c1 at next level, right associativity) : py_scope.
Notation "c1 ;; c2" := (bind c1 (fun _ => c2))
  (at level 61, right associativity) : py_scope.

(** ** The operating system: wall clock and random source *)

(** A reading of [datetime.now()], by the two renderings the code uses:
    [.isoformat()] and the text of [.timestamp()] inside an f-string. *)
Record datetime : Type := { isoformat : string; timestamp : string }.

Record OS : Type := {
  wall_clock : nat -> datetime;
  clock_reads : nat;
  entropy : nat -> byte;
  entropy_read : nat
}.

Definition datetime_now : M OS datetime :=
  fun o =>
    (Return (wall_clock o (clock_reads o)),
     {| wall_clock := wall_clock o; clock_reads := S (clock_reads o);
        entropy := entropy o; entropy_read := entropy_read o |}).

(** [Crypto.Random.get_random_bytes(n)]: the next [n] bytes of the source. *)
Definition get_random_bytes (n : nat) : M OS bytes :=
  fun o =>
    (Return (map (entropy o) (seq (entropy_read o) n)),
     {| wall_clock := wall_clock o; clock_reads := clock_reads o;
        entropy := entropy o; entropy_read := entropy_read o + n |}).

(** ** [bytes.hex()] and [bytes.fromhex()] *)

Fixpoint bytes_eqb (x y : bytes) : bool :=
  match x, y with
  | [], [] => true
  | a :: x', b :: y' => Byte.eqb a b && bytes_eqb x' y'
  | _, _ => false
  end.

Definition hex_digit (n : N) : ascii :=
  nth (N.to_nat n) (list_ascii_of_string "0123456789abcdef") "0"%char.

Fixpoint hex (b : bytes) : string :=
  match b with
  | [] => EmptyString
  | x :: r =>
      String (hex_digit (Byte.to_N x / 16))
        (String (hex_digit (Byte.to_N x mod 16)) (hex r))
  end.

(** Value of a hexadecimal digit of either case. *)
Definition digit_value (c : ascii) : option N :=
  let n := N_of_ascii c in
  if ((48 <=? n) && (n <=? 57))%N then Some (n - 48)%N
  else if ((97 <=? n) && (n <=? 102))%N then Some (n - 87)%N
  else if ((65 <=? n) && (n <=? 70))%N then Some (n - 55)%N
  else None.

(** ASCII white space, which [fromhex] skips in front of a pair of digits. *)
Definition isspace (c : ascii) : bool :=
  let n := N_of_ascii c in
  (((9 <=? n) && (n <=? 13)) || (n =? 32))%N.

Fixpoint fromhex_at (pos : nat) (s : string) : result bytes :=
  match s with
  | EmptyString => Return []
  | String c rest =>
      if isspace c then fromhex_at (S pos) rest
      else
        match digit_value c with
        | None => Raise (ValueError_fromhex pos)
        | Some top =>
            match rest with
            | EmptyString => Raise (ValueError_fromhex (S pos))
            | String c' rest' =>
                match digit_value c' with
                | None => Raise (ValueError_fromhex (S pos))
                | Some bot =>
                    match fromhex_at (S (S pos)) rest' with
                    | Return r => Return (byte_of_N (16 * top + bot) :: r)
                    | Raise e => Raise e
                    end
                end
            end
        end
  end.

Definition fromhex (s : string) : result bytes := fromhex_at 0 s.

(** ** [Crypto.Util.Padding]: PKCS#7 *)

Definition bchr (n : nat) : byte := byte_of_N (N.of_nat n).
Definition bord (b : byte) : nat := N.to_nat (Byte.to_N b).

Definition pad (data_to_pad : bytes) (block_size : nat) : bytes :=
  let padding_len := block_size - length data_to_pad mod block_size in
  let padding := repeat (bchr padding_len) padding_len in
  data_to_pad ++ padding.

Definition unpad (padded_data : bytes) (block_size : nat) : result bytes :=
  let pdata_len := length padded_data in
  if pdata_len =? 0 then Raise ValueError_unpad_empty
  else if negb (pdata_len mod block_size =? 0)
  then Raise ValueError_unpad_not_padded
  else
    let padding_len := bord (last padded_data x00) in
    if (padding_len <? 1) || (Nat.min block_size pdata_len <? padding_len)
    then Raise ValueError_unpad_padding
    else if negb (bytes_eqb (skipn (pdata_len - padding_len) padded_data)
                            (repeat (bchr padding_len) padding_len))
    then Raise ValueError_unpad_pkcs7
    else Return (firstn (pdata_len - padding_len) padded_data).

(** ** [Crypto.Cipher.AES] in CBC mode, over a block transformation *)

Module AES.
Definition block_size : nat := 16.
Definition key_size : list nat := [16; 24; 32].

(** The cipher object made by [AES.new(key, AES.MODE_CBC, iv)]. *)
Record cipher : Type := mk { key : bytes; iv : bytes }.

Definition new (k i : bytes) : result cipher :=
  if negb (existsb (Nat.eqb (length k)) key_size)
  then Raise (ValueError_AES_key_length (length k))
  else if negb (length i =? block_size) then Raise ValueError_IV_length
  else Return (mk k i).

Section Mode.
(** The forward or inverse AES transformation of one block under a
    key. *)
Variable transform : bytes -> bytes -> bytes.

Fixpoint encrypt_blocks (k prev : bytes) (blocks : list bytes)
  : list bytes :=
  match blocks with
  | [] => []
  | p :: rest =>
      let c := transform k (xor_bytes p prev) in
      c :: encrypt_blocks k c rest
  end.

Fixpoint decrypt_blocks (k prev : bytes) (blocks : list bytes)
  : list bytes :=
  match blocks with
  | [] => []
  | c :: rest =>
      xor_bytes (transform k c) prev :: decrypt_blocks k c rest
  end.

(** [cipher.encrypt(plaintext)] *)
Definition encrypt (c : cipher) (plaintext : bytes) : result bytes :=
  if negb (length plaintext mod block_size =? 0)
  then Raise ValueError_CBC_alignment
  else Return (concat (encrypt_blocks (key c) (iv c)
                         (chunk block_size plaintext))).

(** [cipher.decrypt(ciphertext)] *)
Definition decrypt (c : cipher) (ciphertext : bytes) : result bytes :=
  if negb (length ciphertext mod block_size =? 0)
  then Raise ValueError_CBC_alignment
  else Return (concat (decrypt_blocks (key c) (iv c)
                         (chunk block_size ciphertext))).
End Mode.
End AES.

(** ** [class AuthenticationProtocol] of [blockchain/auth_protocol.py] *)

Local Open Scope py_scope.

Module AuthenticationProtocol.
Definition KEY_SIZE : nat := 32.
Definition EPHEMERAL_SIZE : nat := 32.
Definition COMMITMENT_SIZE : nat := 16.

Definition generate_keypair : M OS (bytes * bytes) :=
  private_key <- get_random_bytes KEY_SIZE ;;
  let h := SHA256.new private_key in
  let public_key_part1 := SHA256.digest h in
  public_key_part2 <- get_random_bytes 32 ;;
  let public_key := public_key_part1 ++ public_key_part2 in
  ret (private_key, public_key).

(** Returns [(ciphertext, shared_secret)]. *)
Definition encapsulate (public_key : bytes) : M OS (bytes * bytes) :=
  ephemeral_seed <- get_random_bytes EPHEMERAL_SIZE ;;
  let h_eph := SHA256.new ephemeral_seed in
  let ephemeral_key := SHA256.digest h_eph in
  let encapsulation_input := ephemeral_key ++ public_key in
  let h_encap := SHA256.new encapsulation_input in
  let shared_secret := SHA256.digest h_encap in
  let ciphertext := ephemeral_seed in
  ret (ciphertext, shared_secret).

(** The body of the [try] block; no call in it raises on [bytes]. *)
Definition decapsulate_body (private_key ciphertext public_key : bytes)
  : result bytes :=
  let ephemeral_seed := ciphertext in
  let h_eph := SHA256.new ephemeral_seed in
  let ephemeral_key := SHA256.digest h_eph in
  let decapsulation_input := ephemeral_key ++ public_key in
  let h_decap := SHA256.new decapsulation_input in
  let shared_secret := SHA256.digest h_decap in
  Return shared_secret.

(** [Optional[bytes]]: [None] is what the [except] branch returns after
    printing the failure. *)
Definition decapsulate (private_key ciphertext public_key : bytes)
  : option bytes :=
  match decapsulate_body private_key ciphertext public_key with
  | Return shared_secret => Some shared_secret
  | Raise e => None
  end.

(** Returns [(session_key, authentication_tag)]. *)
Definition create_session_key (shared_secret : bytes) (session_id : string)
  : bytes * bytes :=
  let h_session := HMAC.new shared_secret in
  let h_session := HMAC.update h_session (list_byte_of_string session_id) in
  let session_key := HMAC.digest h_session in
  let h_auth := HMAC.new shared_secret in
  let h_auth :=
    HMAC.update h_auth
      (list_byte_of_string "AUTH_TAG" ++ list_byte_of_string session_id) in
  let authentication_tag := HMAC.digest h_auth in
  (session_key, authentication_tag).
End AuthenticationProtocol.

(** ** [class AuthenticationProtocol] of [auth_protocol_fallback.py] *)

Module Fallback.
Module AuthenticationProtocol.
Definition KEY_SIZE : nat := 32.
Definition COMMITMENT_SIZE : nat := 16.

Definition create_session_key (shared_secret : bytes) (session_id : string)
  : bytes * bytes :=
  let h_session := HMAC.new shared_secret in
  let h_session :=
    HMAC.update h_session (list_byte_of_string session_id) in
  let session_key := HMAC.digest h_session in
  let h_auth := HMAC.new shared_secret in
  let h_auth :=
    HMAC.update h_auth
      (list_byte_of_string "AUTH_TAG" ++ list_byte_of_string session_id) in
  let authentication_tag := HMAC.digest h_auth in
  (session_key, authentication_tag).
End AuthenticationProtocol.
End Fallback.

(** ** [class DeviceAuthenticationSession] *)

Definition Dict : Type := list (string * string).

(** [d[k]]; [None] stands for the [KeyError]. *)
Fixpoint getitem (d : Dict) (k : string) : option string :=
  match d with
  | [] => None
  | (k', v) :: d' => if (k' =? k)%string then Some v else getitem d' k
  end.

Record DeviceAuthenticationSession : Type := {
  device_id : string;
  gateway_id : string;
  session_id : string;
  created_at : string;
  state : string;
  device_public_key : option bytes;
  shared_secret : option bytes;
  session_key : option bytes;
  authentication_tag : option bytes;
  events : list Dict
}.

(** Attribute assignments [self.x = v]. *)
Definition set_state (v : string) (s : DeviceAuthenticationSession) :=
  {| device_id := device_id s; gateway_id := gateway_id s;
     session_id := session_id s; created_at := created_at s;
     state := v; device_public_key := device_public_key s;
     shared_secret := shared_secret s; session_key := session_key s;
     authentication_tag := authentication_tag s; events := events s |}.

Definition set_device_public_key (v : option bytes)
  (s : DeviceAuthenticationSession) :=
  {| device_id := device_id s; gateway_id := gateway_id s;
     session_id := session_id s; created_at := created_at s;
     state := state s; device_public_key := v;
     shared_secret := shared_secret s; session_key := session_key s;
     authentication_tag := authentication_tag s; events := events s |}.

Definition set_shared_secret (v : option bytes)
  (s : DeviceAuthenticationSession) :=
  {| device_id := device_id s; gateway_id := gateway_id s;
     session_id := session_id s; created_at := created_at s;
     state := state s; device_public_key := device_public_key s;
     shared_secret := v; session_key := session_key s;
     authentication_tag := authentication_tag s; events := events s |}.

Definition set_session_key (v : option bytes)
  (s : DeviceAuthenticationSession) :=
  {| device_id := device_id s; gateway_id := gateway_id s;
     session_id := session_id s; created_at := created_at s;
     state := state s; device_public_key := device_public_key s;
     shared_secret := shared_secret s; session_key := v;
     authentication_tag := authentication_tag s; events := events s |}.

Definition set_authentication_tag (v : option bytes)
  (s : DeviceAuthenticationSession) :=
  {| device_id := device_id s; gateway_id := gateway_id s;
     session_id := session_id s; created_at := created_at s;
     state := state s; device_public_key := device_public_key s;
     shared_secret := shared_secret s; session_key := session_key s;
     authentication_tag := v; events := events s |}.

(** [self.events.append(e)] *)
Definition append_event (e : Dict) (s : DeviceAuthenticationSession) :=
  {| device_id := device_id s; gateway_id := gateway_id s;
     session_id := session_id s; created_at := created_at s;
     state := state s; device_public_key := device_public_key s;
     shared_secret := shared_secret s; session_key := session_key s;
     authentication_tag := authentication_tag s;
     events := events s ++ [e] |}.

(** What a method runs in: the object [self] and the operating system. *)
Record World : Type := { self : DeviceAuthenticationSession; os : OS }.

Definition read {A : Type} (f : DeviceAuthenticationSession -> A)
  : M World A :=
  fun w => (Return (f (self w)), w).

Definition assign (f : DeviceAuthenticationSession -> DeviceAuthenticationSession)
  : M World unit :=
  fun w => (Return tt, {| self := f (self w); os := os w |}).

Definition lift_os {A : Type} (m : M OS A) : M World A :=
  fun w => let '(r, o) := m (os w) in (r, {| self := self w; os := o |}).

(** [DeviceAuthenticationSession(device_id, gateway_id)] *)
Definition __init__ (device_id gateway_id : string)
  : M OS DeviceAuthenticationSession :=
  t_id <- datetime_now ;;
  t_created <- datetime_now ;;
  ret {| device_id := device_id; gateway_id := gateway_id;
         session_id :=
           (device_id ++ "_" ++ gateway_id ++ "_" ++ timestamp t_id)%string;
         created_at := isoformat t_created;
         state := "INITIALIZED";
         device_public_key := None; shared_secret := None;
         session_key := None; authentication_tag := None;
         events := [] |}.

Definition _log_event (event_type : string) : M World unit :=
  now <- lift_os datetime_now ;;
  assign (append_event
            [("timestamp", isoformat now); ("event_type", event_type)]%string).

Definition start_authentication (device_public_key : bytes) : M World Dict :=
  st <- read state ;;
  if negb (st =? "INITIALIZED")%string
  then ret [("status", "ERROR"); ("message", "Invalid session state")]%string
  else
    assign (set_device_public_key (Some device_public_key)) ;;
    assign (set_state "PUBLIC_KEY_RECEIVED") ;;
    _log_event "PUBLIC_KEY_RECEIVED" ;;
    ' (ciphertext, shared_secret) <-
      lift_os (AuthenticationProtocol.encapsulate device_public_key) ;;
    assign (set_shared_secret (Some shared_secret)) ;;
    assign (set_state "ENCAPSULATED") ;;
    _log_event "ENCAPSULATED" ;;
    sid <- read session_id ;;
    now <- lift_os datetime_now ;;
    ret [("session_id", sid);
         ("status", "OK");
         ("ciphertext", hex ciphertext);
         ("commitment",
          hex (firstn AuthenticationProtocol.COMMITMENT_SIZE shared_secret));
         ("timestamp", isoformat now)]%string.

Definition verify_authentication (device_commitment : bytes) : M World bool :=
  st <- read state ;;
  ss <- read shared_secret ;;
  match (st =? "ENCAPSULATED")%string, ss with
  | true, Some self_shared_secret =>
      let expected_commitment :=
        firstn AuthenticationProtocol.COMMITMENT_SIZE self_shared_secret in
      if negb (bytes_eqb device_commitment expected_commitment)
      then _log_event "AUTHENTICATION_FAILED" ;; ret false
      else
        sid <- read session_id ;;
        let '(session_key, auth_tag) :=
          AuthenticationProtocol.create_session_key self_shared_secret sid in
        assign (set_session_key (Some session_key)) ;;
        assign (set_authentication_tag (Some auth_tag)) ;;
        assign (set_state "AUTHENTICATED") ;;
        _log_event "AUTHENTICATED" ;;
        ret true
  | _, _ => ret false
  end.

Section SecureChannel.
(** The AES block encryption and decryption, key first. *)
Variable AES_encrypt_block : bytes -> bytes -> bytes.
Variable AES_decrypt_block : bytes -> bytes -> bytes.
(** [str(e)] for the exceptions of the library calls. *)
Variable str_exn : exn -> string.

Definition encrypt_message (plaintext : bytes) : M World Dict :=
  st <- read state ;;
  sk <- read session_key ;;
  match (st =? "AUTHENTICATED")%string, sk with
  | true, Some self_session_key =>
      iv <- lift_os (get_random_bytes 16) ;;
      cipher <- lift_result (AES.new self_session_key iv) ;;
      let padded_plaintext := pad plaintext AES.block_size in
      ciphertext <-
        lift_result (AES.encrypt AES_encrypt_block cipher padded_plaintext) ;;
      let h := HMAC.new self_session_key in
      let h := HMAC.update h ciphertext in
      let hmac_tag := HMAC.digest h in
      now <- lift_os datetime_now ;;
      ret [("iv", hex iv);
           ("ciphertext", hex ciphertext);
           ("hmac", hex hmac_tag);
           ("timestamp", isoformat now)]%string
  | _, _ =>
      ret [("status", "ERROR");
           ("message", "Session not authenticated")]%string
  end.

Definition decrypt_message (iv_hex ciphertext_hex hmac_hex : string)
  : M World (option bytes) :=
  st <- read state ;;
  sk <- read session_key ;;
  match (st =? "AUTHENTICATED")%string, sk with
  | true, Some self_session_key =>
      try_except
        (iv <- lift_result (fromhex iv_hex) ;;
         ciphertext <- lift_result (fromhex ciphertext_hex) ;;
         hmac_received <- lift_result (fromhex hmac_hex) ;;
         let h := HMAC.new self_session_key in
         let h := HMAC.update h ciphertext in
         let hmac_expected := HMAC.digest h in
         if negb (bytes_eqb hmac_received hmac_expected)
         then _log_event "DECRYPTION_HMAC_FAILED" ;; ret None
         else
           cipher <- lift_result (AES.new self_session_key iv) ;;
           padded_plaintext <-
             lift_result (AES.decrypt AES_decrypt_block cipher ciphertext) ;;
           plaintext <- lift_result (unpad padded_plaintext AES.block_size) ;;
           _log_event "MESSAGE_DECRYPTED" ;;
           ret (Some plaintext))
        (fun e =>
           _log_event ("DECRYPTION_ERROR: " ++ str_exn e)%string ;;
           ret None)
  | _, _ => ret None
  end.
End SecureChannel.

(** [get_session_info]: a dictionary whose values are strings, a boolean
    and an integer. *)
Inductive value : Type :=
| VStr (s : string)
| VBool (b : bool)
| VInt (n : nat).

Fixpoint lookup {V : Type} (d : list (string * V)) (k : string) : option V :=
  match d with
  | [] => None
  | (k', v) :: d' => if (k' =? k)%string then Some v else lookup d' k
  end.

Definition get_session_info : M World (list (string * value)) :=
  sid <- read session_id ;;
  dev <- read device_id ;;
  gw <- read gateway_id ;;
  st <- read state ;;
  created <- read created_at ;;
  st' <- read state ;;
  evs <- read events ;;
  ret [("session_id", VStr sid);
       ("device_id", VStr dev);
       ("gateway_id", VStr gw);
       ("state", VStr st);
       ("created_at", VStr created);
       ("authenticated", VBool (st' =? "AUTHENTICATED")%string);
       ("event_count", VInt (length evs))]%string.

(** ** [class DeviceAuthenticationSession] of [auth_protocol_fallback.py]

    The class has the constructor and the two message methods only; its
    objects have the attributes of the main class. *)

Module FallbackSession.
Definition __init__ (device_id gateway_id : string)
  : M OS DeviceAuthenticationSession :=
  t_id <- datetime_now ;;
  t_created <- datetime_now ;;
  ret {| device_id := device_id; gateway_id := gateway_id;
         session_id :=
           (device_id ++ "_" ++ gateway_id ++ "_" ++ timestamp t_id)%string;
         created_at := isoformat t_created;
         state := "INITIALIZED";
         device_public_key := None; shared_secret := None;
         session_key := None; authentication_tag := None;
         events := [] |}.

Section SecureChannel.
Variable AES_encrypt_block : bytes -> bytes -> bytes.
Variable AES_decrypt_block : bytes -> bytes -> bytes.
Variable str_exn : exn -> string.

Definition encrypt_message (plaintext : bytes) : M World Dict :=
  st <- read state ;;
  sk <- read session_key ;;
  match (st =? "AUTHENTICATED")%string, sk with
  | true, Some self_session_key =>
      try_except
        (iv <- lift_os (get_random_bytes 16) ;;
         cipher <- lift_result (AES.new self_session_key iv) ;;
         let padded_plaintext := pad plaintext AES.block_size in
         ciphertext <-
           lift_result
             (AES.encrypt AES_encrypt_block cipher padded_plaintext) ;;
         let h := HMAC.new self_session_key in
         let h := HMAC.update h ciphertext in
         let hmac_tag := HMAC.digest h in
         now <- lift_os datetime_now ;;
         ret [("iv", hex iv);
              ("ciphertext", hex ciphertext);
              ("hmac", hex hmac_tag);
              ("timestamp", isoformat now)]%string)
        (fun e => ret [("status", "ERROR"); ("message", str_exn e)]%string)
  | _, _ =>
      ret [("status", "ERROR");
           ("message", "Session not authenticated")]%string
  end.

Definition decrypt_message (iv_hex ciphertext_hex hmac_hex : string)
  : M World (option bytes) :=
  st <- read state ;;
  sk <- read session_key ;;
  match (st =? "AUTHENTICATED")%string, sk with
  | true, Some self_session_key =>
      try_except
        (iv <- lift_result (fromhex iv_hex) ;;
         ciphertext <- lift_result (fromhex ciphertext_hex) ;;
         hmac_received <- lift_result (fromhex hmac_hex) ;;
         let h := HMAC.new self_session_key in
         let h := HMAC.update h ciphertext in
         let hmac_expected := HMAC.digest h in
         if negb (bytes_eqb hmac_received hmac_expected)
         then ret None
         else
           cipher <- lift_result (AES.new self_session_key iv) ;;
           padded_plaintext <-
             lift_result (AES.decrypt AES_decrypt_block cipher ciphertext) ;;
           plaintext <- lift_result (unpad padded_plaintext AES.block_size) ;;
           ret (Some plaintext))
        (fun e => ret None)
  | _, _ => ret None
  end.
End SecureChannel.
End FallbackSession.

(** ** Vocabulary of the properties *)

(** The operating system after one more reading of the clock. *)
Definition tick (o : OS) : OS :=
  {| wall_clock := wall_clock o; clock_reads := S (clock_reads o);
     entropy := entropy o; entropy_read := entropy_read o |}.

(** The operating system after [n] more bytes of the random source. *)
Definition draw (n : nat) (o : OS) : OS :=
  {| wall_clock := wall_clock o; clock_reads := clock_reads o;
     entropy := entropy o; entropy_read := entropy_read o + n |}.

(** The world after [_log_event(event_type)]: one entry more in
    [self.events], stamped with the current clock reading. *)
Definition logged (event_type : string) (w : World) : World :=
  {| self :=
       append_event
         [("timestamp", isoformat (wall_clock (os w) (clock_reads (os w))));
          ("event_type", event_type)]%string
         (self w);
     os := tick (os w) |}.

(** The event types of the log, oldest first. *)
Definition event_types (s : DeviceAuthenticationSession)
  : list (option string) :=
  map (fun e => getitem e "event_type") (events s).

(** One call of a state-machine operation, or any activity of the rest
    of the program, which may read the clock and the random source but does
    not touch the session object. *)
Inductive step : World -> World -> Prop :=
| step_start_authentication (device_public_key : bytes) (w w' : World)
    (r : result Dict) :
    start_authentication device_public_key w = (r, w') -> step w w'
| step_verify_authentication (device_commitment : bytes) (w w' : World)
    (r : result bool) :
    verify_authentication device_commitment w = (r, w') -> step w w'
| step_environment (w : World) (o : OS) :
    step w {| self := self w; os := o |}.

(** The worlds that hold a session built by the constructor and then
    driven through the two operations. *)
Inductive reachable : World -> Prop :=
| reachable_init (device_id gateway_id : string) (o o' : OS)
    (s : DeviceAuthenticationSession) :
    __init__ device_id gateway_id o = (Return s, o') ->
    reachable {| self := s; os := o' |}
| reachable_step (w w' : World) : reachable w -> step w w' -> reachable w'.

(** [flip_bit i b] inverts bit [i mod 8] of byte [i / 8] of [b]. *)
Fixpoint flip_bit (i : nat) (b : bytes) : bytes :=
  match b with
  | [] => []
  | x :: r =>
      if i <? 8 then xor_byte x (byte_of_N (2 ^ N.of_nat i)) :: r
      else x :: flip_bit (i - 8) r
  end.

(** Where a session stands: nothing yet, a shared secret, or a shared
    secret and a session key, each of 32 bytes. *)
Definition phase (s : DeviceAuthenticationSession) : Prop :=
  (state s = "INITIALIZED"%string /\
   shared_secret s = None /\ session_key s = None) \/
  (state s = "ENCAPSULATED"%string /\
   (exists x, shared_secret s = Some x /\ length x = 32) /\
   session_key s = None) \/
  (state s = "AUTHENTICATED"%string /\
   (exists x, shared_secret s = Some x /\ length x = 32) /\
   (exists k, session_key s = Some k /\ length k = 32)).

(** Every piece has [n] elements. *)
Definition all_blocks {A : Type} (n : nat) (bs : list (list A)) : Prop :=
  Forall (fun b => length b = n) bs.

(** The ciphertext [encrypt_message] produces for a plaintext, given the
    block encryption, the key and the IV it drew. *)
Definition sealed (E : bytes -> bytes -> bytes) (k iv plaintext : bytes)
  : bytes :=
  concat (AES.encrypt_blocks E k iv
            (chunk AES.block_size (pad plaintext AES.block_size))).

(** How far a state is along [INITIALIZED -> PUBLIC_KEY_RECEIVED ->
    ENCAPSULATED -> AUTHENTICATED]. *)
Definition state_rank (st : string) : nat :=
  if (st =? "AUTHENTICATED")%string then 3
  else if (st =? "ENCAPSULATED")%string then 2
  else if (st =? "PUBLIC_KEY_RECEIVED")%string then 1
  else 0.

(** Proof steps for the session methods: name the fields of a world, and
    unfold a method down to the assignments it makes. *)
Ltac world w :=
  destruct w as [[dev gw sid created st pk ss sk tag evs] o]; cbn in *; subst.

Ltac run :=
  unfold start_authentication, verify_authentication, encrypt_message,
    decrypt_message, bind, read, assign, ret, lift_os, lift_result,
    try_except, _log_event, logged;
  cbn [self os state shared_secret session_key session_id String.eqb
       Ascii.eqb Bool.eqb negb andb fst snd].

(** What becomes of a received message under a key: the three hexadecimal
    fields are decoded, the mac is compared, and only then the ciphertext is
    decrypted and unpadded. *)
Inductive verdict : Type :=
| Accepted (plaintext : bytes)
| MacMismatch
| Failed (e : exn).

Definition open_message (D : bytes -> bytes -> bytes) (k : bytes)
  (iv_hex ciphertext_hex hmac_hex : string) : verdict :=
  match fromhex iv_hex with
  | Raise e => Failed e
  | Return iv =>
      match fromhex ciphertext_hex with
      | Raise e => Failed e
      | Return ciphertext =>
          match fromhex hmac_hex with
          | Raise e => Failed e
          | Return hmac_received =>
              if negb (bytes_eqb hmac_received (HMAC.hmac k ciphertext))
              then MacMismatch
              else
                match AES.new k iv with
                | Raise e => Failed e
                | Return cipher =>
                    match AES.decrypt D cipher ciphertext with
                    | Raise e => Failed e
                    | Return padded =>
                        match unpad padded AES.block_size with
                        | Raise e => Failed e
                        | Return plaintext => Accepted plaintext
                        end
                    end
                end
          end
      end
  end.

(** What [decrypt_message] returns for a verdict, and the event type the
    main module logs for it. *)
Definition verdict_value (v : verdict) : option bytes :=
  match v with
  | Accepted plaintext => Some plaintext
  | MacMismatch | Failed _ => None
  end.

Definition verdict_event (str_exn : exn -> string) (v : verdict) : string :=
  match v with
  | Accepted _ => "MESSAGE_DECRYPTED"
  | MacMismatch => "DECRYPTION_HMAC_FAILED"
  | Failed e => "DECRYPTION_ERROR: " ++ str_exn e
  end.

(** The worlds a session of the fallback module reaches from its
    constructor through the two methods the class has. *)
Inductive fallback_reachable (E D : bytes -> bytes -> bytes)
  (str_exn : exn -> string) : World -> Prop :=
| fallback_reachable_init (device_id gateway_id : string) (o o' : OS)
    (s : DeviceAuthenticationSession) :
    FallbackSession.__init__ device_id gateway_id o = (Return s, o') ->
    fallback_reachable E D str_exn {| self := s; os := o' |}
| fallback_reachable_encrypt (w w' : World) (plaintext : bytes)
    (r : result Dict) :
    fallback_reachable E D str_exn w ->
    FallbackSession.encrypt_message E str_exn plaintext w = (r, w') ->
    fallback_reachable E D str_exn w'
| fallback_reachable_decrypt (w w' : World)
    (iv_hex ciphertext_hex hmac_hex : string) (r : result (option bytes)) :
    fallback_reachable E D str_exn w ->
    FallbackSession.decrypt_message D iv_hex ciphertext_hex hmac_hex w
      = (r, w') ->
    fallback_reachable E D str_exn w'
| fallback_reachable_environment (w : World) (o : OS) :
    fallback_reachable E D str_exn w ->
    fallback_reachable E D str_exn {| self := self w; os := o |}.

(** The world after the commitments have been presented one after the
    other to [verify_authentication]. *)
Fixpoint verify_each (commitments : list bytes) (w : World) : World :=
  match commitments with
  | [] => w
  | c :: rest => verify_each rest (snd (verify_authentication c w))
  end.

(** The worlds a session reaches when all four of its methods are called,
    in any order and with any arguments. *)
Inductive operated (E D : bytes -> bytes -> bytes) (str_exn : exn -> string)
  : World -> Prop :=
| operated_reachable (w : World) : reachable w -> operated E D str_exn w
| operated_step (w w' : World) :
    operated E D str_exn w -> step w w' -> operated E D str_exn w'
| operated_encrypt (w w' : World) (plaintext : bytes) (r : result Dict) :
    operated E D str_exn w ->
    encrypt_message E plaintext w = (r, w') ->
    operated E D str_exn w'
| operated_decrypt (w w' : World) (iv_hex ciphertext_hex hmac_hex : string)
    (r : result (option bytes)) :
    operated E D str_exn w ->
    decrypt_message D str_exn iv_hex ciphertext_hex hmac_hex w = (r, w') ->
    operated E D str_exn w'.

(** ** A concrete run, for the examples *)

(** A block transformation that is its own inverse, exclusive or with the
    first 16 bytes of the key; it stands in for AES where an example needs a
    block cipher. *)
Definition xor_block (k b : bytes) : bytes := xor_bytes b (firstn 16 k).

Definition demo_str_exn (e : exn) : string := "ValueError".

Definition demo_os : OS :=
  {| wall_clock :=
       fun _ => {| isoformat := "2024-01-01T00:00:00";
                   timestamp := "1704067200.0" |};
     clock_reads := 0;
     entropy := fun n => byte_of_N (N.of_nat (7 * n + 3));
     entropy_read := 0 |}.

(** The device's keypair, as [(private_key, public_key)]. *)
Definition demo_keypair : bytes * bytes :=
  Eval vm_compute in
    match AuthenticationProtocol.generate_keypair demo_os with
    | (Return kp, _) => kp
    | (Raise _, _) => ([], [])
    end.

Definition demo_os1 : OS := draw 64 demo_os.

(** The session [DeviceAuthenticationSession("DEVICE_001", "GATEWAY_001")]
    builds at that point. *)
Definition demo_session : DeviceAuthenticationSession :=
  {| device_id := "DEVICE_001"; gateway_id := "GATEWAY_001";
     session_id := "DEVICE_001_GATEWAY_001_1704067200.0";
     created_at := "2024-01-01T00:00:00";
     state := "INITIALIZED";
     device_public_key := None; shared_secret := None;
     session_key := None; authentication_tag := None;
     events := [] |}.

Definition demo_fresh : World :=
  {| self := demo_session; os := tick (tick demo_os1) |}.

(** After [start_authentication(public_key)]. *)
Definition demo_encapsulated : World :=
  snd (start_authentication (snd demo_keypair) demo_fresh).

Definition demo_secret : bytes :=
  Eval vm_compute in
    match shared_secret (self demo_encapsulated) with
    | Some x => x
    | None => []
    end.

(** After [verify_authentication(shared_secret[:16])]. *)
Definition demo_authenticated : World :=
  snd (verify_authentication (firstn 16 demo_secret) demo_encapsulated).

Definition demo_session_key : bytes :=
  Eval vm_compute in
    match session_key (self demo_authenticated) with
    | Some k => k
    | None => []
    end.

(** A message of exactly one block. *)
Definition demo_plaintext : bytes := list_byte_of_string "IoMT Device Data".

(** After [encrypt_message(plaintext)], and what it returned. *)
Definition demo_sent : World :=
  snd (encrypt_message xor_block demo_plaintext demo_authenticated).

Definition demo_message : Dict :=
  Eval vm_compute in
    match encrypt_message xor_block demo_plaintext demo_authenticated with
    | (Return d, _) => d
    | (Raise _, _) => []
    end.

(** * Properties *)

(** ** Bytes *)

Lemma to_N_byte_of_N (n : N) : Byte.to_N (byte_of_N n) = (n mod 256)%N.
Proof.
  unfold byte_of_N.
  destruct (Byte.of_N (n mod 256)) as [b|] eqn:E.
  - now apply Byte.to_of_N.
  - apply Byte.of_N_None_iff in E.
    pose proof (N.mod_upper_bound n 256). lia.
Qed.

Lemma byte_of_N_to_N (b : byte) : byte_of_N (Byte.to_N b) = b.
Proof.
  unfold byte_of_N.
  rewrite N.mod_small by (pose proof (Byte.to_N_bounded b); lia).
  now rewrite Byte.of_to_N.
Qed.

Lemma lxor_byte_range (a b : N) :
  (a < 256 -> b < 256 -> N.lxor a b < 256)%N.
Proof.
  intros Ha Hb.
  destruct (N.eq_dec (N.lxor a b) 0) as [->|Hnz]; [lia|].
  change 256%N with (2 ^ 8)%N in *.
  apply N.log2_lt_pow2; [lia|].
  pose proof (N.log2_lxor a b) as Hl.
  assert (N.log2 a < 8)%N.
  { destruct (N.eq_dec a 0) as [->|]; [cbn; lia|].
    apply N.log2_lt_pow2; lia. }
  assert (N.log2 b < 8)%N.
  { destruct (N.eq_dec b 0) as [->|]; [cbn; lia|].
    apply N.log2_lt_pow2; lia. }
  lia.
Qed.

Lemma to_N_xor_byte (x y : byte) :
  Byte.to_N (xor_byte x y) = N.lxor (Byte.to_N x) (Byte.to_N y).
Proof.
  unfold xor_byte. rewrite to_N_byte_of_N.
  apply N.mod_small, lxor_byte_range.
  - pose proof (Byte.to_N_bounded x); lia.
  - pose proof (Byte.to_N_bounded y); lia.
Qed.

Lemma to_N_inj (x y : byte) : Byte.to_N x = Byte.to_N y -> x = y.
Proof.
  intros H. rewrite <- (byte_of_N_to_N x), <- (byte_of_N_to_N y).
  now rewrite H.
Qed.

Lemma xor_byte_cancel (x y : byte) : xor_byte (xor_byte x y) y = x.
Proof.
  apply to_N_inj. rewrite !to_N_xor_byte.
  now rewrite N.lxor_assoc, N.lxor_nilpotent, N.lxor_0_r.
Qed.

Lemma xor_byte_moves (x m : byte) : m <> x00 -> xor_byte x m <> x.
Proof.
  intros Hm Heq. apply Hm, to_N_inj.
  apply (f_equal Byte.to_N) in Heq. rewrite to_N_xor_byte in Heq.
  change (Byte.to_N x00) with 0%N.
  assert (Hm' : N.lxor (Byte.to_N x) (N.lxor (Byte.to_N x) (Byte.to_N m))
                = Byte.to_N m)
    by now rewrite <- N.lxor_assoc, N.lxor_nilpotent, N.lxor_0_l.
  rewrite Heq, N.lxor_nilpotent in Hm'. now symmetry.
Qed.

Lemma xor_bytes_length (x y : bytes) :
  length x = length y -> length (xor_bytes x y) = length x.
Proof.
  revert y. induction x as [|a x IH]; intros [|b y]; simpl; try easy.
  intros [= H]. now rewrite IH.
Qed.

Lemma xor_bytes_cancel (x y : bytes) :
  length x = length y -> xor_bytes (xor_bytes x y) y = x.
Proof.
  revert y. induction x as [|a x IH]; intros [|b y]; simpl; try easy.
  intros [= H]. now rewrite xor_byte_cancel, IH.
Qed.

Lemma bytes_eqb_eq (x y : bytes) : bytes_eqb x y = true <-> x = y.
Proof.
  revert y. induction x as [|a x IH]; intros [|b y]; simpl; try easy.
  rewrite andb_true_iff, IH. split.
  - intros [Hab ->]. now rewrite (Byte.byte_dec_bl _ _ Hab).
  - intros [= -> ->]. split; [now apply Byte.byte_dec_lb | reflexivity].
Qed.

Lemma bytes_eqb_refl (x : bytes) : bytes_eqb x x = true.
Proof. now apply bytes_eqb_eq. Qed.

Lemma bytes_eqb_neq (x y : bytes) : x <> y -> bytes_eqb x y = false.
Proof.
  intros H. destruct (bytes_eqb x y) eqn:E; [|reflexivity].
  now apply bytes_eqb_eq in E.
Qed.

Lemma N_to_be_length (len : nat) (n : N) : length (N_to_be len n) = len.
Proof.
  revert n. induction len as [|k IH]; intros n; simpl; [reflexivity|].
  rewrite length_app, IH. simpl. lia.
Qed.

(** ** SHA-256 and HMAC produce 32 bytes *)

Lemma sha256_length (m : bytes) :
  length (SHA256.sha256 m) = SHA256.digest_size.
Proof.
  unfold SHA256.sha256. cbv zeta. cbn [flat_map].
  rewrite !length_app, !N_to_be_length. reflexivity.
Qed.

Lemma hmac_length (k m : bytes) : length (HMAC.hmac k m) = 32.
Proof. unfold HMAC.hmac. apply sha256_length. Qed.

(** The two functions agree with the published test vectors. *)
Example sha256_empty :
  hex (SHA256.sha256 []) =
  "e3b0c44298fc1c149afbf4c8996fb92427ae41e4649b934ca495991b7852b855"%string.
Proof. vm_compute. reflexivity. Qed.

Example sha256_abc :
  hex (SHA256.sha256 (list_byte_of_string "abc")) =
  "ba7816bf8f01cfea414140de5dae2223b00361a396177a9cb410ff61f20015ad"%string.
Proof. vm_compute. reflexivity. Qed.

Example sha256_two_blocks :
  hex (SHA256.sha256 (repeat "a"%byte 56)) =
  "b35439a4ac6f0948b6d6f9e3c6af0f5f590ce20f1bde7090ef7970686ec6738a"%string.
Proof. vm_compute. reflexivity. Qed.

Example hmac_sha256_short_key :
  hex (HMAC.hmac (list_byte_of_string "key")
         (list_byte_of_string "The quick brown fox jumps over the lazy dog")) =
  "f7bc83f430538424b13298e6aa6fb143ef4d59a14946175997479dbc2d1a3cd8"%string.
Proof. vm_compute. reflexivity. Qed.

Example hmac_sha256_long_key :
  hex (HMAC.hmac (repeat "k"%byte 70) (list_byte_of_string "msg")) =
  "869b65e96f6aff0cfcb55ed40163b7d46e124a4213fa2232d61cca5e4a21256e"%string.
Proof. vm_compute. reflexivity. Qed.

(** From here on the two functions are used through these facts only. *)
Opaque SHA256.sha256 HMAC.hmac.

(** ** Hexadecimal text *)

Lemma fromhex_at_hex_cons (x : byte) (r : bytes) (pos : nat) :
  fromhex_at pos (hex (x :: r)) =
  match fromhex_at (S (S pos)) (hex r) with
  | Return r' => Return (x :: r')
  | Raise e => Raise e
  end.
Proof. destruct x; reflexivity. Qed.

Lemma fromhex_at_hex (b : bytes) : forall pos, fromhex_at pos (hex b) = Return b.
Proof.
  induction b as [|x r IH]; intros pos; [reflexivity|].
  now rewrite fromhex_at_hex_cons, IH.
Qed.

Theorem fromhex_hex (b : bytes) : fromhex (hex b) = Return b.
Proof. apply fromhex_at_hex. Qed.

(** ** Cutting into blocks *)

Section Chunks.
Variable A : Type.
Variable n : nat.
Hypothesis n_pos : 0 < n.

Lemma length_concat_blocks (bs : list (list A)) :
  all_blocks n bs -> length (concat bs) = length bs * n.
Proof.
  induction 1 as [|b bs Hb _ IH]; simpl; [reflexivity|].
  rewrite length_app, Hb, IH. lia.
Qed.

Lemma concat_chunk_fuel (fuel : nat) :
  forall l : list A, length l <= fuel -> concat (chunk_fuel fuel n l) = l.
Proof.
  induction fuel as [|f IH]; intros [|a l] Hl; simpl in *; try easy; try lia.
  change (firstn n (a :: l) ++ concat (chunk_fuel f n (skipn n (a :: l)))
          = a :: l).
  rewrite IH; [apply firstn_skipn|].
  rewrite length_skipn. cbn [length]. lia.
Qed.

Lemma concat_chunk (l : list A) : concat (chunk n l) = l.
Proof. apply concat_chunk_fuel. lia. Qed.

Lemma all_blocks_chunk_fuel (fuel : nat) :
  forall (l : list A) (q : nat),
    length l <= fuel -> length l = q * n -> all_blocks n (chunk_fuel fuel n l).
Proof.
  induction fuel as [|f IH]; intros [|a l] q Hf Hq;
    try (now constructor).
  destruct q as [|q]; [discriminate Hq|].
  change (all_blocks n (firstn n (a :: l)
                        :: chunk_fuel f n (skipn n (a :: l)))).
  constructor.
  - rewrite length_firstn, Hq. lia.
  - apply (IH _ q); rewrite length_skipn, ?Hq; cbn [length] in *; lia.
Qed.

Lemma all_blocks_chunk (l : list A) :
  length l mod n = 0 -> all_blocks n (chunk n l).
Proof.
  intros H. apply Nat.Div0.mod_divides in H as [q Hq].
  apply all_blocks_chunk_fuel with (q := q); lia.
Qed.

Lemma chunk_fuel_concat (bs : list (list A)) :
  all_blocks n bs ->
  forall fuel, length (concat bs) <= fuel -> chunk_fuel fuel n (concat bs) = bs.
Proof.
  induction 1 as [|b bs Hb _ IH]; intros fuel Hf.
  - now destruct fuel.
  - simpl in *. rewrite length_app in Hf.
    destruct fuel as [|f]; [lia|].
    destruct b as [|a b]; [simpl in Hb; lia|].
    change (firstn n ((a :: b) ++ concat bs)
              :: chunk_fuel f n (skipn n ((a :: b) ++ concat bs))
            = (a :: b) :: bs).
    rewrite firstn_app, skipn_app, Hb, Nat.sub_diag.
    rewrite <- Hb at 1 3. rewrite firstn_all, skipn_all.
    simpl firstn. simpl skipn. rewrite app_nil_r. simpl.
    rewrite IH; [reflexivity | simpl in Hf; lia].
Qed.

Lemma chunk_concat (bs : list (list A)) :
  all_blocks n bs -> chunk n (concat bs) = bs.
Proof. intros H. now apply chunk_fuel_concat. Qed.
End Chunks.

(** ** PKCS#7 padding *)

Lemma bord_bchr (p : nat) : p <= 255 -> bord (bchr p) = p.
Proof.
  intros H. unfold bord, bchr. rewrite to_N_byte_of_N.
  rewrite N.mod_small by lia. apply Nat2N.id.
Qed.

Lemma last_app_repeat (m : bytes) (c : byte) (p : nat) :
  0 < p -> last (m ++ repeat c p) x00 = c.
Proof.
  intros Hp. destruct p as [|p]; [lia|].
  replace (repeat c (S p)) with (repeat c p ++ [c])
    by (now rewrite <- repeat_cons).
  now rewrite app_assoc, last_last.
Qed.

Lemma pad_length (m : bytes) (bs : nat) :
  0 < bs -> length (pad m bs) = (S (length m / bs)) * bs.
Proof.
  intros Hbs. unfold pad. rewrite length_app, repeat_length.
  pose proof (Nat.mod_upper_bound (length m) bs).
  pose proof (Nat.div_mod_eq (length m) bs). nia.
Qed.

Lemma pad_aligned (m : bytes) (bs : nat) :
  0 < bs -> length (pad m bs) mod bs = 0.
Proof.
  intros Hbs. rewrite pad_length by assumption. apply Nat.Div0.mod_mul.
Qed.

Theorem unpad_pad (m : bytes) (bs : nat) :
  0 < bs <= 255 -> unpad (pad m bs) bs = Return m.
Proof.
  intros [Hpos Hmax].
  pose proof (pad_aligned m Hpos) as Hal.
  pose proof (Nat.mod_upper_bound (length m) bs ltac:(lia)) as Hr.
  set (p := bs - length m mod bs).
  assert (Hp : 0 < p <= bs) by (unfold p; lia).
  assert (Hpad : pad m bs = m ++ repeat (bchr p) p) by reflexivity.
  assert (Hlen : length (pad m bs) = length m + p)
    by (now rewrite Hpad, length_app, repeat_length).
  assert (Hlast : last (pad m bs) x00 = bchr p)
    by (rewrite Hpad; apply last_app_repeat; lia).
  assert (Hskip : skipn (length m) (pad m bs) = repeat (bchr p) p).
  { rewrite Hpad, skipn_app, Nat.sub_diag, skipn_all. reflexivity. }
  assert (Hfirst : firstn (length m) (pad m bs) = m).
  { rewrite Hpad, firstn_app, Nat.sub_diag, firstn_all. simpl.
    apply app_nil_r. }
  unfold unpad. rewrite Hal, Hlast, bord_bchr by lia.
  rewrite Hlen, Nat.add_sub, Hskip, Hfirst, bytes_eqb_refl.
  destruct (length m + p =? 0) eqn:E0;
    [apply Nat.eqb_eq in E0; lia|]. cbn [negb Nat.eqb].
  replace (p <? 1) with false by (symmetry; apply Nat.ltb_ge; lia).
  replace (Nat.min bs (length m + p) <? p) with false; [reflexivity|].
  symmetry; apply Nat.ltb_ge.
  rewrite Hlen in Hal. apply Nat.Div0.mod_divides in Hal as [q Hq].
  destruct q; nia.
Qed.

(** ** CBC mode over an invertible block transformation *)

Section CBC.
Variables E D : bytes -> bytes -> bytes.
Variable k : bytes.
Hypothesis E_block :
  forall b, length b = AES.block_size -> length (E k b) = AES.block_size.
Hypothesis D_E : forall b, length b = AES.block_size -> D k (E k b) = b.

Lemma encrypt_blocks_all_blocks (bs : list bytes) :
  all_blocks AES.block_size bs ->
  forall prev, length prev = AES.block_size ->
    all_blocks AES.block_size (AES.encrypt_blocks E k prev bs).
Proof.
  induction 1 as [|p bs Hp _ IH]; intros prev Hprev; simpl.
  - constructor.
  - assert (Hc : length (E k (xor_bytes p prev)) = AES.block_size)
      by (apply E_block; rewrite xor_bytes_length; congruence).
    constructor; [exact Hc | now apply IH].
Qed.

Lemma decrypt_encrypt_blocks (bs : list bytes) :
  all_blocks AES.block_size bs ->
  forall prev, length prev = AES.block_size ->
    AES.decrypt_blocks D k prev (AES.encrypt_blocks E k prev bs) = bs.
Proof.
  induction 1 as [|p bs Hp _ IH]; intros prev Hprev; simpl; [reflexivity|].
  assert (Hx : length (xor_bytes p prev) = AES.block_size)
    by (rewrite xor_bytes_length; congruence).
  rewrite D_E, xor_bytes_cancel, IH by (auto; congruence).
  reflexivity.
Qed.

Theorem cbc_decrypt_encrypt (iv data : bytes) :
  length iv = AES.block_size ->
  length data mod AES.block_size = 0 ->
  exists ct,
    AES.encrypt E (AES.mk k iv) data = Return ct /\
    AES.decrypt D (AES.mk k iv) ct = Return data.
Proof.
  intros Hiv Hdata.
  assert (Hpos : 0 < AES.block_size) by (cbv; lia).
  pose proof (all_blocks_chunk Hpos data Hdata) as Hbs.
  pose proof (encrypt_blocks_all_blocks Hbs _ Hiv) as Hcs.
  eexists. unfold AES.encrypt, AES.decrypt. rewrite Hdata.
  split; [reflexivity|]. cbn [AES.key AES.iv].
  rewrite length_concat_blocks with (n := AES.block_size) by assumption.
  rewrite Nat.Div0.mod_mul. cbn [Nat.eqb negb].
  rewrite chunk_concat, decrypt_encrypt_blocks by assumption.
  now rewrite concat_chunk.
Qed.
End CBC.

(** ** The key encapsulation placeholder *)

Lemma get_random_bytes_eq (n : nat) (o : OS) :
  exists b o', get_random_bytes n o = (Return b, o') /\ length b = n.
Proof.
  exists (map (entropy o) (seq (entropy_read o) n)). eexists.
  split; [reflexivity|]. now rewrite length_map, length_seq.
Qed.

Lemma encapsulate_eq (public_key : bytes) (o : OS) :
  exists seed o',
    AuthenticationProtocol.encapsulate public_key o =
      (Return (seed, SHA256.sha256 (SHA256.sha256 seed ++ public_key)), o') /\
    length seed = AuthenticationProtocol.EPHEMERAL_SIZE.
Proof.
  exists (map (entropy o)
            (seq (entropy_read o) AuthenticationProtocol.EPHEMERAL_SIZE)).
  eexists. split; [reflexivity|]. now rewrite length_map, length_seq.
Qed.

Lemma decapsulate_eq (private_key ciphertext public_key : bytes) :
  AuthenticationProtocol.decapsulate private_key ciphertext public_key =
  Some (SHA256.sha256 (SHA256.sha256 ciphertext ++ public_key)).
Proof. reflexivity. Qed.

(** C1. Whatever keypair [generate_keypair] returned and whatever pair
    of ciphertext and shared secret a call of [encapsulate] on the public
    key returned, [decapsulate] on that private key, that ciphertext and
    that public key returns that same shared secret. *)
Theorem C1_shared_secret_recoverability :
  forall (o0 o1 o2 o3 : OS)
         (private_key public_key ciphertext shared_secret : bytes),
    AuthenticationProtocol.generate_keypair o0 =
      (Return (private_key, public_key), o1) ->
    AuthenticationProtocol.encapsulate public_key o2 =
      (Return (ciphertext, shared_secret), o3) ->
    AuthenticationProtocol.decapsulate private_key ciphertext public_key =
      Some shared_secret.
Proof.
  intros o0 o1 o2 o3 sk pk ct ss _ Henc.
  destruct (encapsulate_eq pk o2) as (seed & o' & Heq & _).
  rewrite Heq in Henc. injection Henc as <- <- _.
  apply decapsulate_eq.
Qed.

(** C6. The private key has no influence on what [decapsulate]
    returns. *)
Theorem C6_decapsulate_ignores_private_key :
  forall sk1 sk2 ciphertext public_key : bytes,
    AuthenticationProtocol.decapsulate sk1 ciphertext public_key =
    AuthenticationProtocol.decapsulate sk2 ciphertext public_key.
Proof. intros. now rewrite !decapsulate_eq. Qed.

(** C9, in the form that holds. [decapsulate] checks no length: on every
    ciphertext and every public key, of whatever length, it returns a shared
    secret of 32 bytes, and it never returns the [None] of its failure
    branch. *)
Theorem C9_decapsulate_never_fails :
  forall private_key ciphertext public_key : bytes,
    exists shared_secret,
      AuthenticationProtocol.decapsulate private_key ciphertext public_key =
        Some shared_secret /\
      length shared_secret = 32.
Proof.
  intros sk ct pk. rewrite decapsulate_eq.
  eexists; split; [reflexivity | apply sha256_length].
Qed.

(** C10. The fallback module derives the same session key and the same
    authentication tag as the main module: the HMAC-SHA256 of the session id
    and of ["AUTH_TAG"] followed by the session id, keyed with the shared
    secret. *)
Theorem C10_fallback_create_session_key :
  forall (shared_secret : bytes) (session_id : string),
    Fallback.AuthenticationProtocol.create_session_key
      shared_secret session_id =
    AuthenticationProtocol.create_session_key shared_secret session_id /\
    AuthenticationProtocol.create_session_key shared_secret session_id =
    (HMAC.hmac shared_secret (list_byte_of_string session_id),
     HMAC.hmac shared_secret
       (list_byte_of_string "AUTH_TAG" ++ list_byte_of_string session_id)).
Proof. intros ss sid. split; reflexivity. Qed.

(** ** The session state machine *)

Lemma log_event_eq (event_type : string) (w : World) :
  _log_event event_type w = (Return tt, logged event_type w).
Proof. reflexivity. Qed.

Lemma verify_authentication_rejects (device_commitment : bytes) (w : World) :
  state (self w) <> "ENCAPSULATED"%string \/ shared_secret (self w) = None ->
  verify_authentication device_commitment w = (Return false, w).
Proof.
  intros H. unfold verify_authentication, bind, read. cbn [fst snd].
  destruct H as [Hst | Hss].
  - apply String.eqb_neq in Hst. now rewrite Hst.
  - rewrite Hss. now destruct (_ =? _)%string.
Qed.

Lemma verify_authentication_accepts (w : World) (secret : bytes) :
  state (self w) = "ENCAPSULATED"%string ->
  shared_secret (self w) = Some secret ->
  verify_authentication (firstn 16 secret) w =
    (Return true,
     logged "AUTHENTICATED"
       {| self :=
            set_state "AUTHENTICATED"
              (set_authentication_tag
                 (Some (snd (AuthenticationProtocol.create_session_key
                               secret (session_id (self w)))))
                 (set_session_key
                    (Some (fst (AuthenticationProtocol.create_session_key
                                  secret (session_id (self w)))))
                    (self w)));
          os := os w |}).
Proof.
  intros Hst Hss. world w. run.
  change AuthenticationProtocol.COMMITMENT_SIZE with 16.
  now rewrite bytes_eqb_refl.
Qed.

Lemma verify_authentication_mismatch (w : World) (secret c : bytes) :
  state (self w) = "ENCAPSULATED"%string ->
  shared_secret (self w) = Some secret ->
  c <> firstn 16 secret ->
  verify_authentication c w = (Return false, logged "AUTHENTICATION_FAILED" w).
Proof.
  intros Hst Hss Hne. world w. run.
  change AuthenticationProtocol.COMMITMENT_SIZE with 16.
  now rewrite (bytes_eqb_neq Hne).
Qed.

(** C2. In state [ENCAPSULATED] with a shared secret, verifying the first 16
    bytes of the shared secret returns [True], stores the session key and
    the authentication tag that [create_session_key] derives, moves to
    [AUTHENTICATED] and logs [AUTHENTICATED]; a second call then returns
    [False]; and any other 16-byte commitment returns [False], logs
    [AUTHENTICATION_FAILED] and leaves the session in [ENCAPSULATED]. *)
Theorem C2_commitment_verification :
  forall (w : World) (secret : bytes),
    state (self w) = "ENCAPSULATED"%string ->
    shared_secret (self w) = Some secret ->
    let material :=
      AuthenticationProtocol.create_session_key secret (session_id (self w)) in
    let w_ok :=
      logged "AUTHENTICATED"
        {| self :=
             set_state "AUTHENTICATED"
               (set_authentication_tag (Some (snd material))
                  (set_session_key (Some (fst material)) (self w)));
           os := os w |} in
    verify_authentication (firstn 16 secret) w = (Return true, w_ok) /\
    state (self w_ok) = "AUTHENTICATED"%string /\
    session_key (self w_ok) = Some (fst material) /\
    authentication_tag (self w_ok) = Some (snd material) /\
    event_types (self w_ok) =
      event_types (self w) ++ [Some "AUTHENTICATED"%string] /\
    (forall c, verify_authentication c w_ok = (Return false, w_ok)) /\
    (forall c,
        length c = 16 -> c <> firstn 16 secret ->
        verify_authentication c w =
          (Return false, logged "AUTHENTICATION_FAILED" w) /\
        state (self (logged "AUTHENTICATION_FAILED" w)) =
          "ENCAPSULATED"%string /\
        event_types (self (logged "AUTHENTICATION_FAILED" w)) =
          event_types (self w) ++ [Some "AUTHENTICATION_FAILED"%string]).
Proof.
  intros w secret Hst Hss material w_ok.
  split; [|split; [|split; [|split; [|split; [|split]]]]].
  - now apply verify_authentication_accepts.
  - reflexivity.
  - reflexivity.
  - reflexivity.
  - unfold event_types. cbn. now rewrite map_app.
  - intros c. apply verify_authentication_rejects. now left.
  - intros c Hc Hne. split; [|split].
    + now apply verify_authentication_mismatch with (secret := secret).
    + exact Hst.
    + unfold event_types. cbn. now rewrite map_app.
Qed.

(** What [start_authentication] does, by the state it is called in. *)
Lemma start_authentication_rejects (public_key : bytes) (w : World) :
  state (self w) <> "INITIALIZED"%string ->
  start_authentication public_key w =
    (Return [("status", "ERROR"); ("message", "Invalid session state")]%string,
     w).
Proof.
  intros Hst. apply String.eqb_neq in Hst.
  unfold start_authentication, bind, read. cbn [fst snd].
  now rewrite Hst.
Qed.

Lemma start_authentication_accepts (public_key : bytes) (w : World) :
  state (self w) = "INITIALIZED"%string ->
  let seed := map (entropy (os w)) (seq (entropy_read (os w)) 32) in
  let secret := SHA256.sha256 (SHA256.sha256 seed ++ public_key) in
  let w1 :=
    logged "PUBLIC_KEY_RECEIVED"
      {| self := set_state "PUBLIC_KEY_RECEIVED"
                   (set_device_public_key (Some public_key) (self w));
         os := os w |} in
  let w2 :=
    logged "ENCAPSULATED"
      {| self := set_state "ENCAPSULATED"
                   (set_shared_secret (Some secret) (self w1));
         os := draw 32 (os w1) |} in
  start_authentication public_key w =
    (Return [("session_id", session_id (self w));
             ("status", "OK");
             ("ciphertext", hex seed);
             ("commitment", hex (firstn 16 secret));
             ("timestamp",
               isoformat (wall_clock (os w2) (clock_reads (os w2))))]%string,
     {| self := self w2; os := tick (os w2) |}).
Proof.
  intros Hst seed secret w1 w2.
  unfold start_authentication.
  unfold bind at 1. unfold read at 1. rewrite Hst.
  reflexivity.
Qed.

(** C5. Outside [AUTHENTICATED], [encrypt_message] returns the error
    dictionary ["Session not authenticated"] and [decrypt_message] returns
    [None]; neither reads the random source, logs an event or changes the
    session. *)
Theorem C5_authentication_gating :
  forall (E D : bytes -> bytes -> bytes) (str_exn : exn -> string) (w : World),
    state (self w) <> "AUTHENTICATED"%string ->
    (forall plaintext,
        encrypt_message E plaintext w =
          (Return [("status", "ERROR");
                   ("message", "Session not authenticated")]%string, w)) /\
    (forall iv_hex ciphertext_hex hmac_hex,
        decrypt_message D str_exn iv_hex ciphertext_hex hmac_hex w =
          (Return None, w)).
Proof.
  intros E D str_exn w Hst. apply String.eqb_neq in Hst.
  split; intros; unfold encrypt_message, decrypt_message, bind, read;
    cbn [fst snd]; now rewrite Hst.
Qed.

(** C8. A failing operation returns an explicit error value and leaves the
    [state] field as it was: [start_authentication] outside [INITIALIZED]
    returns its error dictionary with the world untouched;
    [verify_authentication] outside [ENCAPSULATED], or without a shared
    secret, returns [False] with the world untouched, and on a wrong
    commitment returns [False] having only logged the failure; and in
    general, whenever either operation reports failure the state field is
    unchanged. *)
Theorem C8_failure_atomicity :
  forall w : World,
    (forall pk,
        state (self w) <> "INITIALIZED"%string ->
        start_authentication pk w =
          (Return [("status", "ERROR");
                   ("message", "Invalid session state")]%string, w)) /\
    (forall c,
        state (self w) <> "ENCAPSULATED"%string ->
        verify_authentication c w = (Return false, w)) /\
    (forall c secret,
        state (self w) = "ENCAPSULATED"%string ->
        shared_secret (self w) = Some secret ->
        c <> firstn 16 secret ->
        verify_authentication c w =
          (Return false, logged "AUTHENTICATION_FAILED" w) /\
        state (self (logged "AUTHENTICATION_FAILED" w)) = state (self w)) /\
    (forall pk r w',
        start_authentication pk w = (Return r, w') ->
        getitem r "status" = Some "ERROR"%string ->
        w' = w) /\
    (forall c w',
        verify_authentication c w = (Return false, w') ->
        state (self w') = state (self w)).
Proof.
  intros w.
  split; [|split; [|split; [|split]]].
  - intros pk. apply start_authentication_rejects.
  - intros c Hst. apply verify_authentication_rejects. now left.
  - intros c secret Hst Hss Hne. split; [|reflexivity].
    now apply verify_authentication_mismatch with (secret := secret).
  - intros pk r w' Hrun Hstatus.
    destruct (String.eqb_spec (state (self w)) "INITIALIZED") as [Hst|Hst].
    + rewrite (start_authentication_accepts pk w Hst) in Hrun.
      injection Hrun as <- <-. discriminate Hstatus.
    + rewrite start_authentication_rejects in Hrun by assumption.
      now injection Hrun as _ <-.
  - intros c w' Hrun.
    destruct (String.eqb_spec (state (self w)) "ENCAPSULATED") as [Hst|Hst].
    + destruct (shared_secret (self w)) as [secret|] eqn:Hss.
      * destruct (list_eq_dec Byte.byte_eq_dec c (firstn 16 secret))
          as [->|Hne].
        -- rewrite (verify_authentication_accepts w Hst Hss) in Hrun.
           discriminate Hrun.
        -- rewrite (verify_authentication_mismatch w Hst Hss Hne) in Hrun.
           now injection Hrun as <-.
      * rewrite verify_authentication_rejects in Hrun by now right.
        now injection Hrun as <-.
    + rewrite verify_authentication_rejects in Hrun by now left.
      now injection Hrun as <-.
Qed.

(** ** The population invariant *)

Lemma init_eq (dev gw : string) (o : OS) :
  __init__ dev gw o =
    (Return
       {| device_id := dev; gateway_id := gw;
          session_id :=
            (dev ++ "_" ++ gw ++ "_"
               ++ timestamp (wall_clock o (clock_reads o)))%string;
          created_at := isoformat (wall_clock o (S (clock_reads o)));
          state := "INITIALIZED";
          device_public_key := None; shared_secret := None;
          session_key := None; authentication_tag := None;
          events := [] |},
     tick (tick o)).
Proof. reflexivity. Qed.

Lemma phase_step (w w' : World) : step w w' -> phase (self w) -> phase (self w').
Proof.
  intros [pk w0 w1 r Hrun | c w0 w1 r Hrun | w0 o] Hph; [| |exact Hph].
  - destruct (String.eqb_spec (state (self w0)) "INITIALIZED") as [Hst|Hst].
    + rewrite (start_authentication_accepts pk w0 Hst) in Hrun.
      injection Hrun as _ <-. right; left. cbn.
      destruct Hph as [(_ & _ & Hk) | [(H & _) | (H & _)]]; try congruence.
      repeat split; [|exact Hk].
      eexists; split; [reflexivity | apply sha256_length].
    + rewrite start_authentication_rejects in Hrun by assumption.
      now injection Hrun as _ <-.
  - destruct Hph as [(Hst & Hss & Hk) | [(Hst & (x & Hss & Hx) & Hk) | Hph]].
    + rewrite verify_authentication_rejects in Hrun by (right; exact Hss).
      injection Hrun as _ <-. now left.
    + destruct (list_eq_dec Byte.byte_eq_dec c (firstn 16 x)) as [->|Hne].
      * rewrite (verify_authentication_accepts w0 Hst Hss) in Hrun.
        injection Hrun as _ <-. right; right. cbn.
        split; [reflexivity|]. split.
        -- now exists x.
        -- eexists; split; [reflexivity | apply hmac_length].
      * rewrite (verify_authentication_mismatch w0 Hst Hss Hne) in Hrun.
        injection Hrun as _ <-. right; left. cbn. eauto.
    + assert (Hst : state (self w0) <> "ENCAPSULATED"%string)
        by (destruct Hph as (-> & _); discriminate).
      rewrite verify_authentication_rejects in Hrun by (left; exact Hst).
      injection Hrun as _ <-. now right; right.
Qed.

Lemma reachable_phase (w : World) : reachable w -> phase (self w).
Proof.
  induction 1 as [dev gw o o' s Hinit | w w' _ IH Hstep].
  - rewrite init_eq in Hinit. injection Hinit as <- _. now left.
  - exact (phase_step Hstep IH).
Qed.

(** C7. In every world reached from a freshly constructed session by
    [start_authentication] and [verify_authentication], a shared secret is
    present exactly when the state is [ENCAPSULATED] or [AUTHENTICATED], and
    a session key exactly when it is [AUTHENTICATED]. *)
Theorem C7_population_invariant :
  forall w : World,
    reachable w ->
    (shared_secret (self w) <> None <->
       state (self w) = "ENCAPSULATED"%string \/
       state (self w) = "AUTHENTICATED"%string) /\
    (session_key (self w) <> None <-> state (self w) = "AUTHENTICATED"%string).
Proof.
  intros w Hw.
  destruct (reachable_phase Hw)
    as [(Hst & Hss & Hk) | [(Hst & (x & Hss & _) & Hk)
                           | (Hst & (x & Hss & _) & (k & Hk & _))]];
    rewrite Hst, Hss, Hk; repeat split; intros H;
    try congruence; try discriminate; try (destruct H; discriminate);
    auto.
Qed.

(** ** Message protection *)

Lemma AES_new_eq (k iv : bytes) :
  In (length k) AES.key_size -> length iv = AES.block_size ->
  AES.new k iv = Return (AES.mk k iv).
Proof.
  intros Hk Hiv. unfold AES.new.
  replace (existsb (Nat.eqb (length k)) AES.key_size) with true.
  - now rewrite Hiv.
  - symmetry. apply existsb_exists. exists (length k).
    split; [exact Hk | apply Nat.eqb_refl].
Qed.

Section Channel.
Variables E D : bytes -> bytes -> bytes.
Variable str_exn : exn -> string.

Lemma encrypt_message_run (w : World) (k plaintext : bytes) :
  state (self w) = "AUTHENTICATED"%string ->
  session_key (self w) = Some k ->
  let iv := map (entropy (os w)) (seq (entropy_read (os w)) 16) in
  let o := draw 16 (os w) in
  encrypt_message E plaintext w =
    match AES.new k iv with
    | Return _ =>
        (Return
           [("iv", hex iv);
            ("ciphertext", hex (sealed E k iv plaintext));
            ("hmac", hex (HMAC.hmac k (sealed E k iv plaintext)));
            ("timestamp", isoformat (wall_clock o (clock_reads o)))]%string,
         {| self := self w; os := tick o |})
    | Raise e => (Raise e, {| self := self w; os := o |})
    end.
Proof.
  intros Hst Hsk iv o.
  unfold encrypt_message.
  unfold bind at 1, read at 1. unfold bind at 1, read at 1.
  rewrite Hst, Hsk. cbn [String.eqb Ascii.eqb Bool.eqb andb].
  unfold bind at 1, lift_os at 1, get_random_bytes. cbn [os self].
  fold iv. unfold bind at 1, lift_result at 1.
  unfold AES.new.
  destruct (negb (existsb _ _)); [reflexivity|].
  destruct (negb (length iv =? AES.block_size)); [reflexivity|].
  unfold bind at 1, lift_result at 1, AES.encrypt.
  rewrite pad_aligned by (cbv; lia).
  reflexivity.
Qed.

Lemma encrypt_message_eq (w : World) (k plaintext : bytes) :
  state (self w) = "AUTHENTICATED"%string ->
  session_key (self w) = Some k ->
  In (length k) AES.key_size ->
  let iv := map (entropy (os w)) (seq (entropy_read (os w)) 16) in
  let o := draw 16 (os w) in
  encrypt_message E plaintext w =
    (Return [("iv", hex iv);
             ("ciphertext", hex (sealed E k iv plaintext));
             ("hmac", hex (HMAC.hmac k (sealed E k iv plaintext)));
             ("timestamp", isoformat (wall_clock o (clock_reads o)))]%string,
     {| self := self w; os := tick o |}).
Proof.
  intros Hst Hsk Hk iv o.
  rewrite encrypt_message_run with (k := k) by assumption.
  fold iv. rewrite AES_new_eq; [reflexivity | exact Hk |].
  unfold iv. now rewrite length_map, length_seq.
Qed.

(** The three outcomes of [decrypt_message] on well-formed hexadecimal
    fields. *)
Lemma decrypt_message_mac_mismatch (w : World) (k iv ct mac : bytes) :
  state (self w) = "AUTHENTICATED"%string ->
  session_key (self w) = Some k ->
  mac <> HMAC.hmac k ct ->
  decrypt_message D str_exn (hex iv) (hex ct) (hex mac) w =
    (Return None, logged "DECRYPTION_HMAC_FAILED" w).
Proof.
  intros Hst Hsk Hmac.
  unfold decrypt_message.
  unfold bind at 1, read at 1. unfold bind at 1, read at 1.
  rewrite Hst, Hsk. cbn [String.eqb Ascii.eqb Bool.eqb andb].
  unfold try_except, bind, lift_result. rewrite !fromhex_hex.
  unfold HMAC.digest, HMAC.update, HMAC.new. cbn [HMAC.key HMAC.msg app].
  rewrite (bytes_eqb_neq Hmac). reflexivity.
Qed.

Lemma decrypt_message_mac_match (w : World) (k iv ct : bytes) :
  state (self w) = "AUTHENTICATED"%string ->
  session_key (self w) = Some k ->
  decrypt_message D str_exn (hex iv) (hex ct) (hex (HMAC.hmac k ct)) w =
    match
      match AES.new k iv with
      | Return cipher =>
          match AES.decrypt D cipher ct with
          | Return padded => unpad padded AES.block_size
          | Raise e => Raise e
          end
      | Raise e => Raise e
      end
    with
    | Return plaintext =>
        (Return (Some plaintext), logged "MESSAGE_DECRYPTED" w)
    | Raise e =>
        (Return None, logged ("DECRYPTION_ERROR: " ++ str_exn e) w)
    end.
Proof.
  intros Hst Hsk.
  unfold decrypt_message.
  unfold bind at 1, read at 1. unfold bind at 1, read at 1.
  rewrite Hst, Hsk. cbn [String.eqb Ascii.eqb Bool.eqb andb].
  unfold try_except, bind, lift_result. rewrite !fromhex_hex.
  unfold HMAC.digest, HMAC.update, HMAC.new. cbn [HMAC.key HMAC.msg app].
  rewrite bytes_eqb_refl. cbn [negb].
  destruct (AES.new k iv) as [cipher|e]; [|reflexivity].
  destruct (AES.decrypt D cipher ct) as [padded|e]; [|reflexivity].
  destruct (unpad padded AES.block_size) as [plaintext|e]; reflexivity.
Qed.
End Channel.

Lemma flip_bit_moves (b : bytes) :
  forall i, i < 8 * length b -> flip_bit i b <> b.
Proof.
  induction b as [|x r IH]; intros i Hi; [simpl in Hi; lia|].
  cbn [flip_bit]. destruct (Nat.ltb_spec i 8) as [Hlt|Hge].
  - intros [= Hx]. revert Hx. apply xor_byte_moves.
    do 8 (destruct i as [|i]; [discriminate|]). lia.
  - intros [= Hr]. revert Hr. apply IH. cbn [length] in Hi. lia.
Qed.

Lemma flip_bit_length (b : bytes) : forall i, length (flip_bit i b) = length b.
Proof.
  induction b as [|x r IH]; intros i; [reflexivity|].
  cbn [flip_bit]. destruct (i <? 8); cbn [length]; now rewrite ?IH.
Qed.

(** What [encrypt_message] sent comes back from [decrypt_message], on any
    session that holds the key. *)
Lemma decrypt_message_sealed
  (E D : bytes -> bytes -> bytes) (str_exn : exn -> string)
  (k iv plaintext : bytes) (w : World) :
  (forall b, length b = AES.block_size -> length (E k b) = AES.block_size) ->
  (forall b, length b = AES.block_size -> D k (E k b) = b) ->
  In (length k) AES.key_size ->
  length iv = AES.block_size ->
  state (self w) = "AUTHENTICATED"%string ->
  session_key (self w) = Some k ->
  decrypt_message D str_exn (hex iv) (hex (sealed E k iv plaintext))
    (hex (HMAC.hmac k (sealed E k iv plaintext))) w =
  (Return (Some plaintext), logged "MESSAGE_DECRYPTED" w).
Proof.
  intros HE HD Hk Hiv Hst Hsk.
  rewrite decrypt_message_mac_match by assumption.
  rewrite AES_new_eq by assumption.
  assert (Hal : length (pad plaintext AES.block_size) mod AES.block_size = 0)
    by (apply pad_aligned; cbv; lia).
  pose proof (@cbc_decrypt_encrypt E D k HE HD
                iv (pad plaintext AES.block_size) Hiv Hal)
    as (ct & Hct & Hpt).
  unfold AES.encrypt in Hct. rewrite Hal in Hct. injection Hct as <-.
  fold (sealed E k iv plaintext) in Hpt. rewrite Hpt.
  now rewrite unpad_pad by (cbv; lia).
Qed.

(** C3. In [AUTHENTICATED] with a session key that AES accepts,
    [encrypt_message] returns a message for every plaintext, the empty one
    and the one-block one included, without changing the session, and
    [decrypt_message] on the three fields of that message returns the
    plaintext and logs [MESSAGE_DECRYPTED]; so it does on every session that
    holds the same key. The AES block decryption is assumed to invert the
    block encryption, which maps 16 bytes to 16 bytes. *)
Theorem C3_encrypt_decrypt_round_trip :
  forall (E D : bytes -> bytes -> bytes) (str_exn : exn -> string),
    (forall k b,
        In (length k) AES.key_size -> length b = AES.block_size ->
        length (E k b) = AES.block_size) ->
    (forall k b,
        In (length k) AES.key_size -> length b = AES.block_size ->
        D k (E k b) = b) ->
    forall (w : World) (k plaintext : bytes),
      state (self w) = "AUTHENTICATED"%string ->
      session_key (self w) = Some k ->
      In (length k) AES.key_size ->
      exists (message : Dict) (w1 : World)
             (iv_hex ciphertext_hex hmac_hex : string),
        encrypt_message E plaintext w = (Return message, w1) /\
        self w1 = self w /\
        getitem message "iv" = Some iv_hex /\
        getitem message "ciphertext" = Some ciphertext_hex /\
        getitem message "hmac" = Some hmac_hex /\
        decrypt_message D str_exn iv_hex ciphertext_hex hmac_hex w1 =
          (Return (Some plaintext), logged "MESSAGE_DECRYPTED" w1) /\
        (forall w2 : World,
            state (self w2) = "AUTHENTICATED"%string ->
            session_key (self w2) = Some k ->
            decrypt_message D str_exn iv_hex ciphertext_hex hmac_hex w2 =
              (Return (Some plaintext), logged "MESSAGE_DECRYPTED" w2)).
Proof.
  intros E D str_exn HE HD w k plaintext Hst Hsk Hk.
  set (iv := map (entropy (os w)) (seq (entropy_read (os w)) 16)).
  assert (Hiv : length iv = AES.block_size)
    by (unfold iv; now rewrite length_map, length_seq).
  assert (Hopen : forall w2 : World,
             state (self w2) = "AUTHENTICATED"%string ->
             session_key (self w2) = Some k ->
             decrypt_message D str_exn (hex iv) (hex (sealed E k iv plaintext))
               (hex (HMAC.hmac k (sealed E k iv plaintext))) w2 =
             (Return (Some plaintext), logged "MESSAGE_DECRYPTED" w2)).
  { intros w2 Hst2 Hsk2.
    apply decrypt_message_sealed with (E := E); auto. }
  eexists _, _, _, _, _.
  split; [apply encrypt_message_eq; eassumption|].
  do 4 (split; [reflexivity|]).
  split; [|exact Hopen].
  apply Hopen; assumption.
Qed.

(** X21. In [AUTHENTICATED], whatever message [encrypt_message] returned,
    [decrypt_message] on its fields with any one bit of the mac inverted
    returns [None] and logs [DECRYPTION_HMAC_FAILED] and nothing else; and
    so it does on every triple whose mac is not the HMAC of its ciphertext.
    The result does not depend on the block decryption: the check comes
    first and ends the call. *)
Theorem tampered_mac_rejected :
  forall (E D : bytes -> bytes -> bytes) (str_exn : exn -> string)
         (w w1 : World) (k plaintext : bytes) (message : Dict),
    state (self w) = "AUTHENTICATED"%string ->
    session_key (self w) = Some k ->
    encrypt_message E plaintext w = (Return message, w1) ->
    exists iv ciphertext mac : bytes,
      getitem message "iv" = Some (hex iv) /\
      getitem message "ciphertext" = Some (hex ciphertext) /\
      getitem message "hmac" = Some (hex mac) /\
      mac = HMAC.hmac k ciphertext /\
      self w1 = self w /\
      (forall i,
          i < 8 * length mac ->
          decrypt_message D str_exn
            (hex iv) (hex ciphertext) (hex (flip_bit i mac)) w1 =
            (Return None, logged "DECRYPTION_HMAC_FAILED" w1)) /\
      (forall iv' ciphertext' mac' : bytes,
          mac' <> HMAC.hmac k ciphertext' ->
          decrypt_message D str_exn
            (hex iv') (hex ciphertext') (hex mac') w1 =
            (Return None, logged "DECRYPTION_HMAC_FAILED" w1)).
Proof.
  intros E D str_exn w w1 k plaintext message Hst Hsk Hrun.
  rewrite encrypt_message_run with (k := k) in Hrun by assumption.
  destruct (AES.new k _) as [cipher|e]; [|discriminate Hrun].
  injection Hrun as <- <-.
  set (iv := map (entropy (os w)) (seq (entropy_read (os w)) 16)).
  assert (Hreject : forall iv' ciphertext' mac' : bytes,
             mac' <> HMAC.hmac k ciphertext' ->
             decrypt_message D str_exn
               (hex iv') (hex ciphertext') (hex mac')
               {| self := self w; os := tick (draw 16 (os w)) |} =
             (Return None,
              logged "DECRYPTION_HMAC_FAILED"
                {| self := self w; os := tick (draw 16 (os w)) |})).
  { intros iv' ct' mac' Hne.
    now apply decrypt_message_mac_mismatch with (k := k). }
  exists iv, (sealed E k iv plaintext), (HMAC.hmac k (sealed E k iv plaintext)).
  do 5 (split; [reflexivity|]).
  split; [|exact Hreject].
  intros i Hi. apply Hreject. now apply flip_bit_moves.
Qed.

(** ** The handshake as a whole *)

Lemma encrypt_blocks_length (E : bytes -> bytes -> bytes) (k : bytes)
  (bs : list bytes) :
  forall prev, length (AES.encrypt_blocks E k prev bs) = length bs.
Proof.
  induction bs as [|p bs IH]; intros prev; simpl; [reflexivity|].
  now rewrite IH.
Qed.

(** X1. The device side agrees with the gateway. When [start_authentication]
    is called in [INITIALIZED] it answers [OK] with a 32-byte ciphertext and
    a commitment; [decapsulate] on that ciphertext and the device's public
    key recovers the shared secret whose first 16 bytes are that commitment;
    [verify_authentication] on them returns [True]; and the session key the
    gateway then holds is the one [create_session_key] derives from the
    recovered secret and the session id of the answer. *)
Theorem handshake_agreement :
  forall (w : World) (private_key public_key : bytes),
    state (self w) = "INITIALIZED"%string ->
    exists (response : Dict) (w1 w2 : World) (ciphertext secret : bytes),
      start_authentication public_key w = (Return response, w1) /\
      getitem response "status" = Some "OK"%string /\
      getitem response "session_id" = Some (session_id (self w)) /\
      getitem response "ciphertext" = Some (hex ciphertext) /\
      getitem response "commitment" = Some (hex (firstn 16 secret)) /\
      length ciphertext = 32 /\
      AuthenticationProtocol.decapsulate private_key ciphertext public_key =
        Some secret /\
      verify_authentication (firstn 16 secret) w1 = (Return true, w2) /\
      state (self w2) = "AUTHENTICATED"%string /\
      session_key (self w2) =
        Some (fst (AuthenticationProtocol.create_session_key
                     secret (session_id (self w)))).
Proof.
  intros w sk pk Hst.
  pose proof (start_authentication_accepts pk w Hst) as Hstart.
  cbv zeta in Hstart.
  set (seed := map (entropy (os w)) (seq (entropy_read (os w)) 32)) in *.
  set (secret := SHA256.sha256 (SHA256.sha256 seed ++ pk)) in *.
  match type of Hstart with _ = (_, ?w') => set (w1 := w') in * end.
  assert (Hst1 : state (self w1) = "ENCAPSULATED"%string) by reflexivity.
  assert (Hss1 : shared_secret (self w1) = Some secret) by reflexivity.
  pose proof (verify_authentication_accepts w1 Hst1 Hss1) as Hverify.
  match type of Hverify with _ = (_, ?w') => set (w2 := w') in * end.
  eexists. exists w1, w2, seed, secret.
  split; [exact Hstart|].
  do 4 (split; [reflexivity|]).
  split; [unfold seed; now rewrite length_map, length_seq|].
  split; [apply decapsulate_eq|].
  split; [exact Hverify|].
  split; reflexivity.
Qed.

(** X2. No operation, failed or not, takes the session back to an earlier
    state. *)
Theorem state_never_goes_back :
  forall w w' : World,
    step w w' ->
    state_rank (state (self w)) <= state_rank (state (self w')).
Proof.
  intros w w' [pk w0 w1 r Hrun | c w0 w1 r Hrun | w0 o]; [| |reflexivity].
  - destruct (String.eqb_spec (state (self w0)) "INITIALIZED") as [Hst|Hst].
    + rewrite (start_authentication_accepts pk w0 Hst) in Hrun.
      injection Hrun as _ <-. rewrite Hst. cbn. lia.
    + rewrite start_authentication_rejects in Hrun by assumption.
      injection Hrun as _ <-. reflexivity.
  - destruct (String.eqb_spec (state (self w0)) "ENCAPSULATED") as [Hst|Hst].
    + destruct (shared_secret (self w0)) as [x|] eqn:Hss.
      * destruct (list_eq_dec Byte.byte_eq_dec c (firstn 16 x)) as [->|Hne].
        -- rewrite (verify_authentication_accepts w0 Hst Hss) in Hrun.
           injection Hrun as _ <-. rewrite Hst. cbn. lia.
        -- rewrite (verify_authentication_mismatch w0 Hst Hss Hne) in Hrun.
           injection Hrun as _ <-. reflexivity.
      * rewrite verify_authentication_rejects in Hrun by now right.
        injection Hrun as _ <-. reflexivity.
    + rewrite verify_authentication_rejects in Hrun by now left.
      injection Hrun as _ <-. reflexivity.
Qed.

(** X3. The event log only grows: an operation keeps every entry there is, in
    place, and appends what it logs. *)
Theorem event_log_append_only :
  forall w w' : World,
    step w w' ->
    exists new : list Dict, events (self w') = events (self w) ++ new.
Proof.
  intros w w' [pk w0 w1 r Hrun | c w0 w1 r Hrun | w0 o].
  - destruct (String.eqb_spec (state (self w0)) "INITIALIZED") as [Hst|Hst].
    + rewrite (start_authentication_accepts pk w0 Hst) in Hrun.
      injection Hrun as _ <-. cbn. rewrite <- app_assoc. now eexists.
    + rewrite start_authentication_rejects in Hrun by assumption.
      injection Hrun as _ <-. exists []. now rewrite app_nil_r.
  - destruct (String.eqb_spec (state (self w0)) "ENCAPSULATED") as [Hst|Hst].
    + destruct (shared_secret (self w0)) as [x|] eqn:Hss.
      * destruct (list_eq_dec Byte.byte_eq_dec c (firstn 16 x)) as [->|Hne].
        -- rewrite (verify_authentication_accepts w0 Hst Hss) in Hrun.
           injection Hrun as _ <-. cbn. now eexists.
        -- rewrite (verify_authentication_mismatch w0 Hst Hss Hne) in Hrun.
           injection Hrun as _ <-. cbn. now eexists.
      * rewrite verify_authentication_rejects in Hrun by now right.
        injection Hrun as _ <-. exists []. now rewrite app_nil_r.
    + rewrite verify_authentication_rejects in Hrun by now left.
      injection Hrun as _ <-. exists []. now rewrite app_nil_r.
  - exists []. cbn. now rewrite app_nil_r.
Qed.

(** X4. The session key of a reachable session has the 32 bytes of an
    AES-256 key. *)
Theorem reachable_session_key_length :
  forall (w : World) (k : bytes),
    reachable w -> session_key (self w) = Some k -> length k = 32.
Proof.
  intros w k Hw Hk.
  destruct (reachable_phase Hw)
    as [(_ & _ & Hn) | [(_ & _ & Hn) | (_ & _ & (k' & Hk' & Hlen))]];
    congruence.
Qed.

(** X5. On a reachable session in [AUTHENTICATED] the round trip needs no
    assumption on the key: [encrypt_message] returns a message and
    [decrypt_message] on its fields returns the plaintext. *)
Theorem reachable_round_trip :
  forall (E D : bytes -> bytes -> bytes) (str_exn : exn -> string),
    (forall k b,
        In (length k) AES.key_size -> length b = AES.block_size ->
        length (E k b) = AES.block_size) ->
    (forall k b,
        In (length k) AES.key_size -> length b = AES.block_size ->
        D k (E k b) = b) ->
    forall (w : World) (plaintext : bytes),
      reachable w ->
      state (self w) = "AUTHENTICATED"%string ->
      exists (message : Dict) (w1 : World)
             (iv_hex ciphertext_hex hmac_hex : string),
        encrypt_message E plaintext w = (Return message, w1) /\
        getitem message "iv" = Some iv_hex /\
        getitem message "ciphertext" = Some ciphertext_hex /\
        getitem message "hmac" = Some hmac_hex /\
        decrypt_message D str_exn iv_hex ciphertext_hex hmac_hex w1 =
          (Return (Some plaintext), logged "MESSAGE_DECRYPTED" w1).
Proof.
  intros E D str_exn HE HD w plaintext Hw Hst.
  destruct (reachable_phase Hw)
    as [(H & _) | [(H & _) | (_ & _ & (k & Hk & Hlen))]];
    try (rewrite Hst in H; discriminate H).
  assert (Hkey : In (length k) AES.key_size)
    by (rewrite Hlen; cbv; auto).
  set (iv := map (entropy (os w)) (seq (entropy_read (os w)) 16)).
  assert (Hiv : length iv = AES.block_size)
    by (unfold iv; now rewrite length_map, length_seq).
  eexists _, _, _, _, _.
  split; [apply encrypt_message_eq; eassumption|].
  do 3 (split; [reflexivity|]).
  apply decrypt_message_sealed with (E := E); auto.
Qed.

(** X6. The message [encrypt_message] returns has the lengths of the wire
    format: an IV of 16 bytes, a ciphertext of whole blocks, one block more
    than the whole blocks of the plaintext, and a mac of 32 bytes. *)
Theorem encrypted_message_lengths :
  forall (E : bytes -> bytes -> bytes) (w : World) (k plaintext : bytes),
    (forall b, length b = AES.block_size -> length (E k b) = AES.block_size) ->
    state (self w) = "AUTHENTICATED"%string ->
    session_key (self w) = Some k ->
    In (length k) AES.key_size ->
    exists (iv ciphertext mac : bytes) (stamp : string) (w1 : World),
      encrypt_message E plaintext w =
        (Return [("iv", hex iv); ("ciphertext", hex ciphertext);
                 ("hmac", hex mac); ("timestamp", stamp)]%string, w1) /\
      length iv = 16 /\
      length ciphertext = 16 * (length plaintext / 16 + 1) /\
      length mac = 32.
Proof.
  intros E w k plaintext HE Hst Hsk Hk.
  set (iv := map (entropy (os w)) (seq (entropy_read (os w)) 16)).
  assert (Hiv : length iv = AES.block_size)
    by (unfold iv; now rewrite length_map, length_seq).
  exists iv, (sealed E k iv plaintext),
    (HMAC.hmac k (sealed E k iv plaintext)).
  eexists _, _.
  split; [apply encrypt_message_eq; eassumption|].
  split; [exact Hiv|]. split; [|apply hmac_length].
  assert (Hpos : 0 < AES.block_size) by (cbv; lia).
  pose proof (pad_aligned plaintext Hpos) as Hal.
  pose proof (all_blocks_chunk Hpos _ Hal) as Hbs.
  pose proof (encrypt_blocks_all_blocks E k HE Hbs _ Hiv) as Hcs.
  pose proof (length_concat_blocks Hpos Hbs) as Hplain.
  rewrite concat_chunk, pad_length in Hplain by assumption.
  unfold sealed.
  rewrite length_concat_blocks with (n := AES.block_size) by assumption.
  rewrite encrypt_blocks_length.
  transitivity (S (length plaintext / AES.block_size) * AES.block_size);
    [symmetry; exact Hplain|].
  change AES.block_size with 16. lia.
Qed.

(** ** Receiving a message: every outcome *)

Section Receiving.
Variables E D : bytes -> bytes -> bytes.
Variable str_exn : exn -> string.

(** In [AUTHENTICATED], [decrypt_message] returns the value of the verdict
    and logs its event. *)
Lemma decrypt_message_run (w : World) (k : bytes)
  (iv_hex ciphertext_hex hmac_hex : string) :
  state (self w) = "AUTHENTICATED"%string ->
  session_key (self w) = Some k ->
  decrypt_message D str_exn iv_hex ciphertext_hex hmac_hex w =
    (Return (verdict_value (open_message D k iv_hex ciphertext_hex hmac_hex)),
     logged (verdict_event str_exn
               (open_message D k iv_hex ciphertext_hex hmac_hex)) w).
Proof.
  intros Hst Hsk.
  unfold decrypt_message.
  unfold bind at 1, read at 1. unfold bind at 1, read at 1.
  rewrite Hst, Hsk. cbn [String.eqb Ascii.eqb Bool.eqb andb].
  unfold open_message, try_except, bind, lift_result.
  unfold HMAC.digest, HMAC.update, HMAC.new. cbn [HMAC.key HMAC.msg app].
  destruct (fromhex iv_hex) as [iv|e]; [|reflexivity].
  destruct (fromhex ciphertext_hex) as [ct|e]; [|reflexivity].
  destruct (fromhex hmac_hex) as [mac|e]; [|reflexivity].
  destruct (negb (bytes_eqb mac (HMAC.hmac k ct))); [reflexivity|].
  destruct (AES.new k iv) as [cipher|e]; [|reflexivity].
  destruct (AES.decrypt D cipher ct) as [padded|e]; [|reflexivity].
  destruct (unpad padded AES.block_size) as [plaintext|e]; reflexivity.
Qed.

Lemma decrypt_message_closed (w : World)
  (iv_hex ciphertext_hex hmac_hex : string) :
  state (self w) <> "AUTHENTICATED"%string \/ session_key (self w) = None ->
  decrypt_message D str_exn iv_hex ciphertext_hex hmac_hex w =
    (Return None, w).
Proof.
  intros H. unfold decrypt_message, bind, read. cbn [fst snd].
  destruct H as [Hst | Hsk].
  - apply String.eqb_neq in Hst. now rewrite Hst.
  - rewrite Hsk. now destruct (_ =? _)%string.
Qed.

(** The fallback module's [decrypt_message] returns the value of the same
    verdict and changes nothing. *)
Lemma fallback_decrypt_message_run (w : World) (k : bytes)
  (iv_hex ciphertext_hex hmac_hex : string) :
  state (self w) = "AUTHENTICATED"%string ->
  session_key (self w) = Some k ->
  FallbackSession.decrypt_message D iv_hex ciphertext_hex hmac_hex w =
    (Return (verdict_value (open_message D k iv_hex ciphertext_hex hmac_hex)),
     w).
Proof.
  intros Hst Hsk.
  unfold FallbackSession.decrypt_message.
  unfold bind at 1, read at 1. unfold bind at 1, read at 1.
  rewrite Hst, Hsk. cbn [String.eqb Ascii.eqb Bool.eqb andb].
  unfold open_message, try_except, bind, lift_result, ret.
  unfold HMAC.digest, HMAC.update, HMAC.new. cbn [HMAC.key HMAC.msg app].
  destruct (fromhex iv_hex) as [iv|e]; [|reflexivity].
  destruct (fromhex ciphertext_hex) as [ct|e]; [|reflexivity].
  destruct (fromhex hmac_hex) as [mac|e]; [|reflexivity].
  destruct (negb (bytes_eqb mac (HMAC.hmac k ct))); [reflexivity|].
  destruct (AES.new k iv) as [cipher|e]; [|reflexivity].
  destruct (AES.decrypt D cipher ct) as [padded|e]; [|reflexivity].
  destruct (unpad padded AES.block_size) as [plaintext|e]; reflexivity.
Qed.

Lemma fallback_decrypt_message_closed (w : World)
  (iv_hex ciphertext_hex hmac_hex : string) :
  state (self w) <> "AUTHENTICATED"%string \/ session_key (self w) = None ->
  FallbackSession.decrypt_message D iv_hex ciphertext_hex hmac_hex w =
    (Return None, w).
Proof.
  intros H. unfold FallbackSession.decrypt_message, bind, read.
  cbn [fst snd].
  destruct H as [Hst | Hsk].
  - apply String.eqb_neq in Hst. now rewrite Hst.
  - rewrite Hsk. now destruct (_ =? _)%string.
Qed.

Lemma fallback_encrypt_message_run (w : World) (k plaintext : bytes) :
  state (self w) = "AUTHENTICATED"%string ->
  session_key (self w) = Some k ->
  let iv := map (entropy (os w)) (seq (entropy_read (os w)) 16) in
  let o := draw 16 (os w) in
  FallbackSession.encrypt_message E str_exn plaintext w =
    match AES.new k iv with
    | Return _ =>
        (Return
           [("iv", hex iv);
            ("ciphertext", hex (sealed E k iv plaintext));
            ("hmac", hex (HMAC.hmac k (sealed E k iv plaintext)));
            ("timestamp", isoformat (wall_clock o (clock_reads o)))]%string,
         {| self := self w; os := tick o |})
    | Raise e =>
        (Return [("status", "ERROR"); ("message", str_exn e)]%string,
         {| self := self w; os := o |})
    end.
Proof.
  intros Hst Hsk iv o.
  unfold FallbackSession.encrypt_message.
  unfold bind at 1, read at 1. unfold bind at 1, read at 1.
  rewrite Hst, Hsk. cbn [String.eqb Ascii.eqb Bool.eqb andb].
  unfold try_except.
  unfold bind at 1, lift_os at 1, get_random_bytes. cbn [os self].
  fold iv. unfold bind at 1, lift_result at 1.
  unfold AES.new.
  destruct (negb (existsb _ _)); [reflexivity|].
  destruct (negb (length iv =? AES.block_size)); [reflexivity|].
  unfold bind at 1, lift_result at 1, AES.encrypt.
  rewrite pad_aligned by (cbv; lia).
  reflexivity.
Qed.

Lemma fallback_encrypt_message_closed (w : World) (plaintext : bytes) :
  state (self w) <> "AUTHENTICATED"%string \/ session_key (self w) = None ->
  FallbackSession.encrypt_message E str_exn plaintext w =
    (Return [("status", "ERROR");
             ("message", "Session not authenticated")]%string, w).
Proof.
  intros H. unfold FallbackSession.encrypt_message, bind, read.
  cbn [fst snd].
  destruct H as [Hst | Hsk].
  - apply String.eqb_neq in Hst. now rewrite Hst.
  - rewrite Hsk. now destruct (_ =? _)%string.
Qed.
End Receiving.

Lemma AES_new_inv (k iv : bytes) (c : AES.cipher) :
  AES.new k iv = Return c ->
  c = AES.mk k iv /\ In (length k) AES.key_size /\ length iv = AES.block_size.
Proof.
  unfold AES.new.
  destruct (existsb (Nat.eqb (length k)) AES.key_size) eqn:Hk;
    [|discriminate].
  destruct (Nat.eqb_spec (length iv) AES.block_size) as [Hiv|Hiv];
    [|discriminate].
  cbn [negb]. intros [= <-]. repeat split; [|exact Hiv].
  apply existsb_exists in Hk as (n & Hn & Heq).
  apply Nat.eqb_eq in Heq. now rewrite Heq.
Qed.

Lemma AES_new_rejects_key (k iv : bytes) :
  ~ In (length k) AES.key_size ->
  AES.new k iv = Raise (ValueError_AES_key_length (length k)).
Proof.
  intros Hk. unfold AES.new.
  destruct (existsb (Nat.eqb (length k)) AES.key_size) eqn:E;
    [|reflexivity].
  apply existsb_exists in E as (n & Hn & Heq).
  apply Nat.eqb_eq in Heq. now rewrite Heq in Hk.
Qed.

(** X7. [decrypt_message] never raises and never touches the state or the
    keys. Outside [AUTHENTICATED] it returns [None] and changes nothing; in
    [AUTHENTICATED] each call appends exactly one event, and that event is
    [MESSAGE_DECRYPTED] exactly when a plaintext is returned. *)
Theorem decrypt_message_always_answers :
  forall (D : bytes -> bytes -> bytes) (str_exn : exn -> string) (w : World)
         (iv_hex ciphertext_hex hmac_hex : string),
    exists (r : option bytes) (w' : World),
      decrypt_message D str_exn iv_hex ciphertext_hex hmac_hex w =
        (Return r, w') /\
      state (self w') = state (self w) /\
      shared_secret (self w') = shared_secret (self w) /\
      session_key (self w') = session_key (self w) /\
      (((state (self w) <> "AUTHENTICATED"%string \/
         session_key (self w) = None) /\ r = None /\ w' = w)
       \/
       (state (self w) = "AUTHENTICATED"%string /\
        session_key (self w) <> None /\
        exists e : Dict,
          events (self w') = events (self w) ++ [e] /\
          (getitem e "event_type" = Some "MESSAGE_DECRYPTED"%string <->
           r <> None))).
Proof.
  intros D str_exn w iv_hex ct_hex mac_hex.
  destruct (String.eqb_spec (state (self w)) "AUTHENTICATED") as [Hst|Hst].
  - destruct (session_key (self w)) as [k|] eqn:Hsk.
    + rewrite (decrypt_message_run D str_exn w iv_hex ct_hex mac_hex Hst Hsk).
      eexists _, _. split; [reflexivity|].
      do 3 (split; [try reflexivity; exact Hsk|]).
      right. split; [exact Hst|]. split; [discriminate|].
      eexists. split; [reflexivity|].
      cbn [getitem String.eqb Ascii.eqb Bool.eqb andb].
      destruct (open_message D k iv_hex ct_hex mac_hex) as [p| |e];
        cbn; split; intros H; try discriminate H; try reflexivity;
        now elim H.
    + rewrite decrypt_message_closed by (right; exact Hsk).
      eexists _, _. split; [reflexivity|].
      do 3 (split; [try reflexivity; exact Hsk|]).
      left. repeat split. now right.
  - rewrite decrypt_message_closed by (left; exact Hst).
    eexists _, _. split; [reflexivity|].
    do 3 (split; [reflexivity|]).
    left. repeat split. now left.
Qed.

(** X8. A field that is not hexadecimal text ends the call before any check:
    [None] is returned and one [DECRYPTION_ERROR] event carries the text of
    the [ValueError] of the first such field, in the order iv, ciphertext,
    hmac. *)
Theorem malformed_hex_rejected :
  forall (D : bytes -> bytes -> bytes) (str_exn : exn -> string) (w : World)
         (k : bytes) (iv_hex ciphertext_hex hmac_hex : string) (e : exn),
    state (self w) = "AUTHENTICATED"%string ->
    session_key (self w) = Some k ->
    fromhex iv_hex = Raise e \/
    (exists iv, fromhex iv_hex = Return iv /\
                fromhex ciphertext_hex = Raise e) \/
    (exists iv ct, fromhex iv_hex = Return iv /\
                   fromhex ciphertext_hex = Return ct /\
                   fromhex hmac_hex = Raise e) ->
    decrypt_message D str_exn iv_hex ciphertext_hex hmac_hex w =
      (Return None, logged ("DECRYPTION_ERROR: " ++ str_exn e) w).
Proof.
  intros D str_exn w k iv_hex ct_hex mac_hex e Hst Hsk H.
  rewrite (decrypt_message_run D str_exn w iv_hex ct_hex mac_hex Hst Hsk).
  unfold open_message.
  destruct H as [H1 | [(iv & H1 & H2) | (iv & ct & H1 & H2 & H3)]];
    rewrite H1, ?H2, ?H3; reflexivity.
Qed.

(** X9. A correct mac does not make a malformed message acceptable: with an
    IV that is not 16 bytes long, an empty ciphertext or a ciphertext that is
    not a whole number of blocks, the call returns [None] and logs one
    [DECRYPTION_ERROR] event, whatever the block decryption is. *)
Theorem malformed_message_rejected :
  forall (D : bytes -> bytes -> bytes) (str_exn : exn -> string) (w : World)
         (k iv ciphertext : bytes),
    state (self w) = "AUTHENTICATED"%string ->
    session_key (self w) = Some k ->
    length iv <> 16 \/ ciphertext = [] \/ length ciphertext mod 16 <> 0 ->
    exists e : exn,
      decrypt_message D str_exn
        (hex iv) (hex ciphertext) (hex (HMAC.hmac k ciphertext)) w =
        (Return None, logged ("DECRYPTION_ERROR: " ++ str_exn e) w).
Proof.
  intros D str_exn w k iv ct Hst Hsk H.
  rewrite (decrypt_message_run D str_exn w _ _ _ Hst Hsk).
  unfold open_message. rewrite !fromhex_hex, bytes_eqb_refl. cbn [negb].
  destruct (AES.new k iv) as [cipher|e] eqn:Hnew; [|now exists e].
  apply AES_new_inv in Hnew as (-> & _ & Hiv).
  destruct H as [H | [-> | H]].
  - now elim H.
  - eexists. reflexivity.
  - unfold AES.decrypt. change AES.block_size with 16.
    destruct (Nat.eqb_spec (length ct mod 16) 0) as [H0|H0]; [now elim H|].
    eexists. reflexivity.
Qed.

(** X10. [encrypt_message] raises exactly when the session is
    [AUTHENTICATED] with a session key whose length AES refuses; the
    exception is the [ValueError] of [AES.new], and the session is left as it
    was. *)
Theorem encrypt_message_raises_iff :
  forall (E : bytes -> bytes -> bytes) (w : World) (plaintext : bytes),
    (forall e w',
        encrypt_message E plaintext w = (Raise e, w') ->
        state (self w) = "AUTHENTICATED"%string /\
        self w' = self w /\
        exists k, session_key (self w) = Some k /\
                  ~ In (length k) AES.key_size /\
                  e = ValueError_AES_key_length (length k)) /\
    (forall k,
        state (self w) = "AUTHENTICATED"%string ->
        session_key (self w) = Some k ->
        ~ In (length k) AES.key_size ->
        encrypt_message E plaintext w =
          (Raise (ValueError_AES_key_length (length k)),
           {| self := self w; os := draw 16 (os w) |})).
Proof.
  intros E w plaintext. split.
  - intros e w' Hrun.
    destruct (String.eqb_spec (state (self w)) "AUTHENTICATED") as [Hst|Hst].
    + destruct (session_key (self w)) as [k|] eqn:Hsk.
      * rewrite encrypt_message_run with (k := k) in Hrun by assumption.
        destruct (AES.new k _) as [c|e'] eqn:Hnew; [discriminate Hrun|].
        injection Hrun as <- <-.
        split; [exact Hst|]. split; [reflexivity|].
        exists k. split; [reflexivity|].
        assert (Hk : ~ In (length k) AES.key_size).
        { intros Hk. rewrite AES_new_eq in Hnew; [discriminate| exact Hk|].
          now rewrite length_map, length_seq. }
        split; [exact Hk|].
        rewrite AES_new_rejects_key in Hnew by exact Hk. congruence.
      * unfold encrypt_message, bind, read in Hrun. cbn [fst snd] in Hrun.
        rewrite Hsk in Hrun. now destruct (_ =? _)%string.
    + apply String.eqb_neq in Hst.
      unfold encrypt_message, bind, read in Hrun. cbn [fst snd] in Hrun.
      now rewrite Hst in Hrun.
  - intros k Hst Hsk Hk.
    rewrite encrypt_message_run with (k := k) by assumption.
    now rewrite AES_new_rejects_key.
Qed.

(** X11. The fallback module's [decrypt_message] returns, on every session
    and every three fields, the value the main module's returns; unlike the
    main module's it logs nothing and leaves the session as it was. *)
Theorem fallback_decrypt_agrees :
  forall (D : bytes -> bytes -> bytes) (str_exn : exn -> string) (w : World)
         (iv_hex ciphertext_hex hmac_hex : string),
    exists (r : option bytes) (w' : World),
      decrypt_message D str_exn iv_hex ciphertext_hex hmac_hex w =
        (Return r, w') /\
      FallbackSession.decrypt_message D iv_hex ciphertext_hex hmac_hex w =
        (Return r, w).
Proof.
  intros D str_exn w iv_hex ct_hex mac_hex.
  destruct (String.eqb_spec (state (self w)) "AUTHENTICATED") as [Hst|Hst].
  - destruct (session_key (self w)) as [k|] eqn:Hsk.
    + rewrite (decrypt_message_run D str_exn w iv_hex ct_hex mac_hex Hst Hsk).
      rewrite (fallback_decrypt_message_run D w iv_hex ct_hex mac_hex Hst Hsk).
      now eexists _, _.
    + rewrite decrypt_message_closed, fallback_decrypt_message_closed
        by (right; exact Hsk).
      now eexists _, _.
  - rewrite decrypt_message_closed, fallback_decrypt_message_closed
      by (left; exact Hst).
    now eexists _, _.
Qed.

(** X12. The fallback module's [encrypt_message] never raises. Where the
    main module's returns a dictionary it returns the same one and leaves the
    same world; where the main module's raises it returns an error
    dictionary with the text of the exception. *)
Theorem fallback_encrypt_agrees :
  forall (E : bytes -> bytes -> bytes) (str_exn : exn -> string) (w : World)
         (plaintext : bytes),
    exists w' : World,
      (exists message : Dict,
          encrypt_message E plaintext w = (Return message, w') /\
          FallbackSession.encrypt_message E str_exn plaintext w =
            (Return message, w'))
      \/
      (exists e : exn,
          encrypt_message E plaintext w = (Raise e, w') /\
          FallbackSession.encrypt_message E str_exn plaintext w =
            (Return [("status", "ERROR"); ("message", str_exn e)]%string, w')).
Proof.
  intros E str_exn w plaintext.
  destruct (String.eqb_spec (state (self w)) "AUTHENTICATED") as [Hst|Hst].
  - destruct (session_key (self w)) as [k|] eqn:Hsk.
    + rewrite encrypt_message_run with (k := k) by assumption.
      rewrite fallback_encrypt_message_run with (k := k) by assumption.
      destruct (AES.new k _) as [c|e]; eexists.
      * left. now eexists.
      * right. now eexists.
    + exists w. left. eexists.
      rewrite fallback_encrypt_message_closed by (right; exact Hsk).
      split; [|reflexivity].
      unfold encrypt_message, bind, read. cbn [fst snd].
      rewrite Hsk. now destruct (_ =? _)%string.
  - exists w. left. eexists.
    rewrite fallback_encrypt_message_closed by (left; exact Hst).
    split; [|reflexivity].
    apply String.eqb_neq in Hst.
    unfold encrypt_message, bind, read. cbn [fst snd]. now rewrite Hst.
Qed.

(** X13. The two modules interoperate: in [AUTHENTICATED] with a key AES
    accepts, both [encrypt_message] methods return the same message, and on
    every session holding that key both [decrypt_message] methods return the
    plaintext for it, the main one logging [MESSAGE_DECRYPTED], the fallback
    one logging nothing. *)
Theorem fallback_interoperates :
  forall (E D : bytes -> bytes -> bytes) (str_exn : exn -> string),
    (forall k b,
        In (length k) AES.key_size -> length b = AES.block_size ->
        length (E k b) = AES.block_size) ->
    (forall k b,
        In (length k) AES.key_size -> length b = AES.block_size ->
        D k (E k b) = b) ->
    forall (w : World) (k plaintext : bytes),
      state (self w) = "AUTHENTICATED"%string ->
      session_key (self w) = Some k ->
      In (length k) AES.key_size ->
      exists (message : Dict) (w1 : World)
             (iv_hex ciphertext_hex hmac_hex : string),
        encrypt_message E plaintext w = (Return message, w1) /\
        FallbackSession.encrypt_message E str_exn plaintext w =
          (Return message, w1) /\
        getitem message "iv" = Some iv_hex /\
        getitem message "ciphertext" = Some ciphertext_hex /\
        getitem message "hmac" = Some hmac_hex /\
        (forall w2 : World,
            state (self w2) = "AUTHENTICATED"%string ->
            session_key (self w2) = Some k ->
            decrypt_message D str_exn iv_hex ciphertext_hex hmac_hex w2 =
              (Return (Some plaintext), logged "MESSAGE_DECRYPTED" w2) /\
            FallbackSession.decrypt_message D
              iv_hex ciphertext_hex hmac_hex w2 =
              (Return (Some plaintext), w2)).
Proof.
  intros E D str_exn HE HD w k plaintext Hst Hsk Hk.
  set (iv := map (entropy (os w)) (seq (entropy_read (os w)) 16)).
  assert (Hiv : length iv = AES.block_size)
    by (unfold iv; now rewrite length_map, length_seq).
  eexists _, _.
  exists (hex iv), (hex (sealed E k iv plaintext)),
    (hex (HMAC.hmac k (sealed E k iv plaintext))).
  split; [apply encrypt_message_eq; eassumption|].
  split.
  { rewrite fallback_encrypt_message_run with (k := k) by assumption.
    fold iv. now rewrite AES_new_eq by assumption. }
  do 3 (split; [reflexivity|]).
  intros w2 Hst2 Hsk2. clearbody iv.
  assert (Hmain :
            decrypt_message D str_exn (hex iv) (hex (sealed E k iv plaintext))
              (hex (HMAC.hmac k (sealed E k iv plaintext))) w2 =
            (Return (Some plaintext), logged "MESSAGE_DECRYPTED" w2))
    by (apply decrypt_message_sealed with (E := E); auto).
  split; [exact Hmain|].
  rewrite (decrypt_message_run D str_exn w2 _ _ _ Hst2 Hsk2) in Hmain.
  rewrite (fallback_decrypt_message_run D w2 _ _ _ Hst2 Hsk2).
  injection Hmain as Hv _. now rewrite Hv.
Qed.

(** X14. The fallback class has no operation that authenticates: a session
    built by its constructor and used through its two methods stays as the
    constructor left it, in [INITIALIZED] without keys and with an empty
    log, so [encrypt_message] keeps answering that the session is not
    authenticated and [decrypt_message] keeps returning [None]. *)
Theorem fallback_session_never_authenticated :
  forall (E D : bytes -> bytes -> bytes) (str_exn : exn -> string) (w : World),
    fallback_reachable E D str_exn w ->
    state (self w) = "INITIALIZED"%string /\
    session_key (self w) = None /\
    events (self w) = [] /\
    (forall plaintext,
        FallbackSession.encrypt_message E str_exn plaintext w =
          (Return [("status", "ERROR");
                   ("message", "Session not authenticated")]%string, w)) /\
    (forall iv_hex ciphertext_hex hmac_hex,
        FallbackSession.decrypt_message D iv_hex ciphertext_hex hmac_hex w =
          (Return None, w)).
Proof.
  intros E D str_exn w Hw.
  assert (Hinv : state (self w) = "INITIALIZED"%string /\
                 session_key (self w) = None /\ events (self w) = []).
  { induction Hw as [dev gw o o' s Hinit
                    | w w' pt r _ IH Hrun
                    | w w' iv ct mac r _ IH Hrun
                    | w o _ IH].
    - injection Hinit as <- _. now repeat split.
    - destruct IH as (Hst & Hsk & Hev).
      rewrite fallback_encrypt_message_closed in Hrun by (right; exact Hsk).
      injection Hrun as _ <-. now repeat split.
    - destruct IH as (Hst & Hsk & Hev).
      rewrite fallback_decrypt_message_closed in Hrun by (right; exact Hsk).
      injection Hrun as _ <-. now repeat split.
    - exact IH. }
  destruct Hinv as (Hst & Hsk & Hev).
  repeat split; try assumption; intros.
  - apply fallback_encrypt_message_closed. now right.
  - apply fallback_decrypt_message_closed. now right.
Qed.

(** ** The IV is outside the mac *)

Lemma xor_byte_same (x y z : byte) : xor_byte (xor_byte x y) z = x -> z = y.
Proof.
  intros H. apply to_N_inj. apply (f_equal Byte.to_N) in H.
  rewrite !to_N_xor_byte in H.
  apply N.lxor_eq.
  assert (Hx : N.lxor (Byte.to_N x)
                 (N.lxor (N.lxor (Byte.to_N x) (Byte.to_N y)) (Byte.to_N z))
               = N.lxor (Byte.to_N x) (Byte.to_N x)) by now rewrite H.
  rewrite N.lxor_nilpotent in Hx. rewrite <- Hx.
  rewrite <- !N.lxor_assoc, N.lxor_nilpotent, N.lxor_0_l.
  apply N.lxor_comm.
Qed.

Lemma xor_bytes_same (x y z : bytes) :
  length x = length y -> length x = length z ->
  xor_bytes (xor_bytes x y) z = x -> z = y.
Proof.
  revert y z.
  induction x as [|a x IH]; intros [|b y] [|c z]; simpl; try easy.
  intros [= Hy] [= Hz] [= Ha Hx].
  f_equal; [now apply xor_byte_same with (x := a) | now apply IH].
Qed.

Section OtherIV.
Variables E D : bytes -> bytes -> bytes.
Variable k : bytes.
Hypothesis E_block :
  forall b, length b = AES.block_size -> length (E k b) = AES.block_size.
Hypothesis D_E : forall b, length b = AES.block_size -> D k (E k b) = b.

(** Decrypting under another IV changes the first block only. *)
Lemma cbc_decrypt_other_iv (iv iv' first rest : bytes) :
  length iv = AES.block_size ->
  length first = AES.block_size ->
  length rest mod AES.block_size = 0 ->
  AES.decrypt D (AES.mk k iv')
    (concat (AES.encrypt_blocks E k iv
               (chunk AES.block_size (first ++ rest)))) =
  Return (xor_bytes (xor_bytes first iv) iv' ++ rest).
Proof.
  intros Hiv Hfirst Hrest.
  assert (Hpos : 0 < AES.block_size) by (cbv; lia).
  pose proof (all_blocks_chunk Hpos rest Hrest) as Hbs.
  assert (Hall : all_blocks AES.block_size
                   (first :: chunk AES.block_size rest))
    by (constructor; assumption).
  assert (Hchunk : chunk AES.block_size (first ++ rest)
                   = first :: chunk AES.block_size rest).
  { rewrite <- (concat_chunk Hpos rest) at 1.
    change (first ++ concat (chunk AES.block_size rest))
      with (concat (first :: chunk AES.block_size rest)).
    now apply chunk_concat. }
  rewrite Hchunk.
  pose proof (encrypt_blocks_all_blocks E k E_block Hall _ Hiv) as Hcs.
  unfold AES.decrypt.
  rewrite length_concat_blocks with (n := AES.block_size) by assumption.
  rewrite Nat.Div0.mod_mul. cbn [Nat.eqb negb AES.key AES.iv].
  rewrite chunk_concat by assumption.
  cbn [AES.encrypt_blocks AES.decrypt_blocks concat].
  assert (Hx : length (xor_bytes first iv) = AES.block_size)
    by (rewrite xor_bytes_length; congruence).
  rewrite D_E by exact Hx.
  rewrite (decrypt_encrypt_blocks E D k E_block D_E Hbs)
    by (apply E_block; exact Hx).
  now rewrite concat_chunk.
Qed.
End OtherIV.

(** X15. The mac covers the ciphertext and not the IV. For a plaintext of
    at least one block, [decrypt_message] accepts the message
    [encrypt_message] returned under any other 16-byte IV: it logs
    [MESSAGE_DECRYPTED] and returns a plaintext whose first 16 bytes are the
    original ones combined by exclusive or with both IVs, the rest
    unchanged; so the plaintext returned differs from the one sent as soon
    as the IV differs. *)
Theorem iv_is_not_authenticated :
  forall (E D : bytes -> bytes -> bytes) (str_exn : exn -> string),
    (forall k b,
        In (length k) AES.key_size -> length b = AES.block_size ->
        length (E k b) = AES.block_size) ->
    (forall k b,
        In (length k) AES.key_size -> length b = AES.block_size ->
        D k (E k b) = b) ->
    forall (w : World) (k plaintext : bytes),
      state (self w) = "AUTHENTICATED"%string ->
      session_key (self w) = Some k ->
      In (length k) AES.key_size ->
      16 <= length plaintext ->
      exists (iv ciphertext mac : bytes) (stamp : string) (w1 : World),
        encrypt_message E plaintext w =
          (Return [("iv", hex iv); ("ciphertext", hex ciphertext);
                   ("hmac", hex mac); ("timestamp", stamp)]%string, w1) /\
        forall iv' : bytes,
          length iv' = 16 ->
          decrypt_message D str_exn (hex iv') (hex ciphertext) (hex mac) w1 =
            (Return
               (Some (xor_bytes (xor_bytes (firstn 16 plaintext) iv) iv'
                        ++ skipn 16 plaintext)),
             logged "MESSAGE_DECRYPTED" w1) /\
          (iv' <> iv ->
           xor_bytes (xor_bytes (firstn 16 plaintext) iv) iv'
             ++ skipn 16 plaintext <> plaintext).
Proof.
  intros E D str_exn HE HD w k plaintext Hst Hsk Hk Hlen.
  set (iv := map (entropy (os w)) (seq (entropy_read (os w)) 16)).
  assert (Hiv : length iv = 16)
    by (unfold iv; now rewrite length_map, length_seq).
  exists iv, (sealed E k iv plaintext),
    (HMAC.hmac k (sealed E k iv plaintext)).
  eexists _, _.
  split; [apply encrypt_message_eq; eassumption|].
  intros iv' Hiv'.
  set (first := firstn 16 plaintext).
  set (tail := skipn 16 plaintext).
  assert (Hfirst : length first = 16)
    by (unfold first; rewrite length_firstn; lia).
  assert (Hsplit : plaintext = first ++ tail)
    by (symmetry; apply firstn_skipn).
  set (first' := xor_bytes (xor_bytes first iv) iv').
  assert (Hfirst' : length first' = 16).
  { unfold first'.
    assert (Hx : length (xor_bytes first iv) = 16)
      by (rewrite xor_bytes_length; congruence).
    rewrite xor_bytes_length; congruence. }
  split.
  - set (p := 16 - length plaintext mod 16).
    set (rest := tail ++ repeat (bchr p) p).
    assert (Hpad : pad plaintext AES.block_size = first ++ rest).
    { unfold rest. rewrite app_assoc, <- Hsplit. reflexivity. }
    assert (Hpad' : pad (first' ++ tail) AES.block_size = first' ++ rest).
    { unfold rest, pad. rewrite <- app_assoc.
      assert (Hl : length (first' ++ tail) = length plaintext)
        by (rewrite Hsplit, !length_app; congruence).
      rewrite Hl. reflexivity. }
    assert (Hrest : length rest mod AES.block_size = 0).
    { pose proof (pad_aligned plaintext (bs := AES.block_size)
                    ltac:(cbv; lia)) as Hal.
      rewrite Hpad, length_app, Hfirst in Hal.
      change AES.block_size with 16 in *.
      rewrite <- Nat.Div0.add_mod_idemp_l in Hal. exact Hal. }
    rewrite decrypt_message_run with (k := k) by assumption.
    unfold open_message. rewrite !fromhex_hex, bytes_eqb_refl. cbn [negb].
    rewrite AES_new_eq by assumption.
    unfold sealed. rewrite Hpad.
    rewrite (@cbc_decrypt_other_iv E D k
               (fun b => HE k b Hk) (fun b => HD k b Hk))
      by assumption.
    fold first'. rewrite <- Hpad', unpad_pad by (cbv; lia).
    reflexivity.
  - intros Hne Heq. apply Hne.
    rewrite Hsplit in Heq.
    apply app_inv_tail in Heq.
    apply xor_bytes_same with (x := first);
      [congruence | congruence | exact Heq].
Qed.

(** X16. Nothing in [decrypt_message] keeps track of the messages already
    received: a message accepted once is accepted again with the same
    plaintext, by the session as the call left it and by every session in
    the same state with the same key, with one more [MESSAGE_DECRYPTED]
    event each time. *)
Theorem accepted_message_replays :
  forall (D : bytes -> bytes -> bytes) (str_exn : exn -> string)
         (w w1 : World) (iv_hex ciphertext_hex hmac_hex : string)
         (plaintext : bytes),
    decrypt_message D str_exn iv_hex ciphertext_hex hmac_hex w =
      (Return (Some plaintext), w1) ->
    w1 = logged "MESSAGE_DECRYPTED" w /\
    decrypt_message D str_exn iv_hex ciphertext_hex hmac_hex w1 =
      (Return (Some plaintext), logged "MESSAGE_DECRYPTED" w1) /\
    (forall w2 : World,
        state (self w2) = state (self w) ->
        session_key (self w2) = session_key (self w) ->
        decrypt_message D str_exn iv_hex ciphertext_hex hmac_hex w2 =
          (Return (Some plaintext), logged "MESSAGE_DECRYPTED" w2)).
Proof.
  intros D str_exn w w1 iv_hex ciphertext_hex hmac_hex plaintext Hrun.
  destruct (String.eqb_spec (state (self w)) "AUTHENTICATED") as [Hst|Hst];
    [|rewrite decrypt_message_closed in Hrun by (left; exact Hst);
      discriminate Hrun].
  destruct (session_key (self w)) as [k|] eqn:Hsk;
    [|rewrite decrypt_message_closed in Hrun by (right; exact Hsk);
      discriminate Hrun].
  rewrite decrypt_message_run with (k := k) in Hrun by assumption.
  destruct (open_message D k iv_hex ciphertext_hex hmac_hex)
    as [pt| |e] eqn:Hv; cbn [verdict_value verdict_event] in Hrun;
    try discriminate Hrun.
  injection Hrun as Hpt Hw1. subst pt w1.
  assert (Hagain :
            forall w2 : World,
              state (self w2) = state (self w) ->
              session_key (self w2) = Some k ->
              decrypt_message D str_exn iv_hex ciphertext_hex hmac_hex w2 =
                (Return (Some plaintext), logged "MESSAGE_DECRYPTED" w2)).
  { intros w2 Hst2 Hsk2. rewrite Hst in Hst2.
    rewrite decrypt_message_run with (k := k) by assumption.
    now rewrite Hv. }
  split; [reflexivity|]. split.
  - apply Hagain; [reflexivity | exact Hsk].
  - exact Hagain.
Qed.

(** X17. A failed verification does not lock the session. After any number
    of commitments that differ from the first 16 bytes of the shared
    secret the session is still in [ENCAPSULATED] with the same secret and
    one [AUTHENTICATION_FAILED] event per attempt, and the right commitment
    then authenticates it with the session key of the secret and the
    session identifier. *)
Theorem failed_verification_can_be_retried :
  forall (w : World) (secret : bytes) (wrong : list bytes),
    state (self w) = "ENCAPSULATED"%string ->
    shared_secret (self w) = Some secret ->
    forallb (fun c => negb (bytes_eqb c (firstn 16 secret))) wrong = true ->
    state (self (verify_each wrong w)) = "ENCAPSULATED"%string /\
    shared_secret (self (verify_each wrong w)) = Some secret /\
    session_key (self (verify_each wrong w)) = session_key (self w) /\
    event_types (self (verify_each wrong w)) =
      event_types (self w)
        ++ repeat (Some "AUTHENTICATION_FAILED"%string) (length wrong) /\
    exists w' : World,
      verify_authentication (firstn 16 secret) (verify_each wrong w) =
        (Return true, w') /\
      state (self w') = "AUTHENTICATED"%string /\
      session_key (self w') =
        Some (fst (AuthenticationProtocol.create_session_key
                     secret (session_id (self w)))).
Proof.
  intros w secret wrong. revert w.
  induction wrong as [|c wrong IH]; intros w Hst Hss Hwrong.
  - cbn [verify_each length repeat]. rewrite app_nil_r.
    do 4 (split; [reflexivity || assumption|]).
    eexists. split; [now apply verify_authentication_accepts|].
    split; reflexivity.
  - cbn [forallb] in Hwrong. apply andb_true_iff in Hwrong.
    destruct Hwrong as [Hc Hwrong].
    assert (Hne : c <> firstn 16 secret).
    { intros ->. now rewrite bytes_eqb_refl in Hc. }
    cbn [verify_each].
    rewrite (verify_authentication_mismatch w Hst Hss Hne). cbn [snd].
    destruct (IH (logged "AUTHENTICATION_FAILED" w) Hst Hss Hwrong)
      as (Hst' & Hss' & Hsk' & Hev' & w' & Hrun & Hst'' & Hsk'').
    split; [exact Hst'|]. split; [exact Hss'|]. split; [exact Hsk'|].
    split.
    + rewrite Hev'. unfold event_types. cbn.
      rewrite map_app, <- app_assoc. reflexivity.
    + exists w'. split; [exact Hrun|]. split; [exact Hst''|exact Hsk''].
Qed.

(** ** The whole protocol *)

Lemma generate_keypair_eq (o : OS) :
  let private_key := map (entropy o) (seq (entropy_read o) 32) in
  AuthenticationProtocol.generate_keypair o =
    (Return (private_key,
             SHA256.sha256 private_key
               ++ map (entropy o) (seq (entropy_read o + 32) 32)),
     draw 32 (draw 32 o)).
Proof. reflexivity. Qed.

(** X18. The sequence of calls of the module's script always succeeds, for
    every source of randomness, clock, pair of identifiers and plaintext:
    the generated public key has 64 bytes and starts with the hash of the
    private key, [start_authentication] answers [OK], the device recovers
    the 32-byte secret from the ciphertext of the response,
    [verify_authentication] accepts its first 16 bytes, the encrypted
    message decrypts to the plaintext, and the log of the session holds the
    four events of the run in order. *)
Theorem protocol_run_succeeds :
  forall (E D : bytes -> bytes -> bytes) (str_exn : exn -> string),
    (forall k b,
        In (length k) AES.key_size -> length b = AES.block_size ->
        length (E k b) = AES.block_size) ->
    (forall k b,
        In (length k) AES.key_size -> length b = AES.block_size ->
        D k (E k b) = b) ->
    forall (o : OS) (device_id gateway_id : string) (plaintext : bytes),
      exists (private_key public_key : bytes) (o1 : OS)
             (s : DeviceAuthenticationSession) (o2 : OS)
             (response : Dict) (w1 : World)
             (ciphertext secret : bytes) (w2 : World)
             (message : Dict) (w3 : World)
             (iv_hex ciphertext_hex hmac_hex : string) (w4 : World),
        AuthenticationProtocol.generate_keypair o =
          (Return (private_key, public_key), o1) /\
        length public_key = 64 /\
        firstn 32 public_key = SHA256.sha256 private_key /\
        __init__ device_id gateway_id o1 = (Return s, o2) /\
        start_authentication public_key {| self := s; os := o2 |} =
          (Return response, w1) /\
        getitem response "status" = Some "OK"%string /\
        getitem response "ciphertext" = Some (hex ciphertext) /\
        fromhex (hex ciphertext) = Return ciphertext /\
        AuthenticationProtocol.decapsulate private_key ciphertext public_key =
          Some secret /\
        length secret = 32 /\
        verify_authentication (firstn 16 secret) w1 = (Return true, w2) /\
        encrypt_message E plaintext w2 = (Return message, w3) /\
        getitem message "iv" = Some iv_hex /\
        getitem message "ciphertext" = Some ciphertext_hex /\
        getitem message "hmac" = Some hmac_hex /\
        decrypt_message D str_exn iv_hex ciphertext_hex hmac_hex w3 =
          (Return (Some plaintext), w4) /\
        event_types (self w4) =
          [Some "PUBLIC_KEY_RECEIVED"; Some "ENCAPSULATED";
           Some "AUTHENTICATED"; Some "MESSAGE_DECRYPTED"]%string.
Proof.
  intros E D str_exn HE HD o dev gw plaintext.
  pose proof (generate_keypair_eq o) as Hkeys. cbv zeta in Hkeys.
  set (sk := map (entropy o) (seq (entropy_read o) 32)) in *.
  set (pk := SHA256.sha256 sk
               ++ map (entropy o) (seq (entropy_read o + 32) 32)) in *.
  set (o1 := draw 32 (draw 32 o)) in *.
  pose proof (init_eq dev gw o1) as Hinit.
  match type of Hinit with
  | _ = (Return ?x, ?y) => set (s := x) in *; set (o2 := y) in *
  end.
  set (w0 := {| self := s; os := o2 |}).
  assert (Hst0 : state (self w0) = "INITIALIZED"%string) by reflexivity.
  pose proof (start_authentication_accepts pk w0 Hst0) as Hstart.
  cbv zeta in Hstart.
  set (seed := map (entropy (os w0)) (seq (entropy_read (os w0)) 32)) in *.
  set (secret := SHA256.sha256 (SHA256.sha256 seed ++ pk)) in *.
  match type of Hstart with _ = (_, ?w') => set (w1 := w') in * end.
  assert (Hst1 : state (self w1) = "ENCAPSULATED"%string) by reflexivity.
  assert (Hss1 : shared_secret (self w1) = Some secret) by reflexivity.
  pose proof (verify_authentication_accepts w1 Hst1 Hss1) as Hverify.
  match type of Hverify with _ = (_, ?w') => set (w2 := w') in * end.
  set (k := fst (AuthenticationProtocol.create_session_key
                   secret (session_id (self w1)))).
  assert (Hst2 : state (self w2) = "AUTHENTICATED"%string) by reflexivity.
  assert (Hsk2 : session_key (self w2) = Some k) by reflexivity.
  assert (Hk : In (length k) AES.key_size).
  { unfold k, AuthenticationProtocol.create_session_key. cbn [fst].
    unfold HMAC.digest, HMAC.update, HMAC.new. cbn [HMAC.key HMAC.msg].
    rewrite hmac_length. cbv; auto. }
  set (iv := map (entropy (os w2)) (seq (entropy_read (os w2)) 16)).
  assert (Hiv : length iv = AES.block_size)
    by (unfold iv; now rewrite length_map, length_seq).
  pose proof (@encrypt_message_eq E w2 k plaintext Hst2 Hsk2 Hk) as Hsend.
  cbv zeta in Hsend. fold iv in Hsend.
  match type of Hsend with _ = (_, ?w') => set (w3 := w') in * end.
  assert (Hst3 : state (self w3) = "AUTHENTICATED"%string) by reflexivity.
  assert (Hsk3 : session_key (self w3) = Some k) by reflexivity.
  pose proof (@decrypt_message_sealed E D str_exn k iv plaintext w3
                (fun b => HE k b Hk) (fun b => HD k b Hk) Hk Hiv Hst3 Hsk3)
    as Hreceive.
  exists sk, pk, o1, s, o2. eexists. exists w1, seed, secret, w2.
  eexists. exists w3.
  exists (hex iv), (hex (sealed E k iv plaintext)),
    (hex (HMAC.hmac k (sealed E k iv plaintext))).
  exists (logged "MESSAGE_DECRYPTED" w3).
  split; [exact Hkeys|].
  split.
  { unfold pk, SHA256.digest_size.
    rewrite length_app, sha256_length, length_map, length_seq.
    reflexivity. }
  split.
  { unfold pk. rewrite firstn_app, sha256_length.
    change (32 - SHA256.digest_size) with 0.
    rewrite firstn_O, app_nil_r. apply firstn_all2.
    rewrite sha256_length. apply Nat.le_refl. }
  split; [exact Hinit|].
  split; [exact Hstart|].
  do 2 (split; [reflexivity|]).
  split; [apply fromhex_hex|].
  split; [apply decapsulate_eq|].
  split; [apply sha256_length|].
  split; [exact Hverify|].
  split; [exact Hsend|].
  do 3 (split; [reflexivity|]).
  split; [exact Hreceive|].
  reflexivity.
Qed.

(** ** Sessions used through all four methods *)

Lemma encrypt_message_closed
  (E : bytes -> bytes -> bytes) (w : World) (plaintext : bytes) :
  state (self w) <> "AUTHENTICATED"%string \/ session_key (self w) = None ->
  encrypt_message E plaintext w =
    (Return [("status", "ERROR");
             ("message", "Session not authenticated")]%string, w).
Proof.
  intros H. unfold encrypt_message, bind, read. cbn [fst snd].
  destruct H as [Hst | Hsk].
  - apply String.eqb_neq in Hst. now rewrite Hst.
  - rewrite Hsk. now destruct (_ =? _)%string.
Qed.

Lemma encrypt_message_self
  (E : bytes -> bytes -> bytes) (w w' : World) (plaintext : bytes)
  (r : result Dict) :
  encrypt_message E plaintext w = (r, w') -> self w' = self w.
Proof.
  intros Hrun.
  destruct (String.eqb_spec (state (self w)) "AUTHENTICATED") as [Hst|Hst];
    [|rewrite encrypt_message_closed in Hrun by (left; exact Hst);
      now injection Hrun as _ <-].
  destruct (session_key (self w)) as [k|] eqn:Hsk;
    [|rewrite encrypt_message_closed in Hrun by (right; exact Hsk);
      now injection Hrun as _ <-].
  rewrite encrypt_message_run with (k := k) in Hrun by assumption.
  destruct (AES.new k _); now injection Hrun as _ <-.
Qed.

Lemma decrypt_message_phase
  (D : bytes -> bytes -> bytes) (str_exn : exn -> string) (w w' : World)
  (iv_hex ciphertext_hex hmac_hex : string) (r : result (option bytes)) :
  decrypt_message D str_exn iv_hex ciphertext_hex hmac_hex w = (r, w') ->
  phase (self w) -> phase (self w').
Proof.
  intros Hrun Hph.
  destruct (String.eqb_spec (state (self w)) "AUTHENTICATED") as [Hst|Hst];
    [|rewrite decrypt_message_closed in Hrun by (left; exact Hst);
      now injection Hrun as _ <-].
  destruct (session_key (self w)) as [k|] eqn:Hsk;
    [|rewrite decrypt_message_closed in Hrun by (right; exact Hsk);
      now injection Hrun as _ <-].
  rewrite decrypt_message_run with (k := k) in Hrun by assumption.
  injection Hrun as _ <-. exact Hph.
Qed.

Lemma operated_phase
  (E D : bytes -> bytes -> bytes) (str_exn : exn -> string) (w : World) :
  operated E D str_exn w -> phase (self w).
Proof.
  induction 1 as [w Hw
                 | w w' _ IH Hstep
                 | w w' pt r _ IH Hrun
                 | w w' iv ct mac r _ IH Hrun].
  - now apply reachable_phase.
  - now apply phase_step with (w := w).
  - now rewrite (encrypt_message_self _ _ _ Hrun).
  - now apply decrypt_message_phase with (1 := Hrun).
Qed.

(** X19. The invariants of the session hold however its four methods are
    interleaved, [encrypt_message] and [decrypt_message] included: the
    shared secret is set exactly in [ENCAPSULATED] and [AUTHENTICATED], the
    session key exactly in [AUTHENTICATED], the key has the 32 bytes of an
    AES-256 key, and therefore [encrypt_message] never raises. *)
Theorem invariant_under_all_methods :
  forall (E D : bytes -> bytes -> bytes) (str_exn : exn -> string) (w : World),
    operated E D str_exn w ->
    (shared_secret (self w) <> None <->
       state (self w) = "ENCAPSULATED"%string \/
       state (self w) = "AUTHENTICATED"%string) /\
    (session_key (self w) <> None <->
       state (self w) = "AUTHENTICATED"%string) /\
    (forall k, session_key (self w) = Some k -> length k = 32) /\
    (forall plaintext, exists (message : Dict) (w' : World),
        encrypt_message E plaintext w = (Return message, w')).
Proof.
  intros E D str_exn w Hw.
  destruct (operated_phase Hw)
    as [(Hst & Hss & Hsk)
       | [(Hst & (x & Hss & Hx) & Hsk)
         | (Hst & (x & Hss & Hx) & (k & Hsk & Hk))]];
    rewrite Hst, Hss, Hsk.
  - split; [|split; [|split]].
    + split; [congruence | intros [H|H]; discriminate H].
    + split; [congruence | discriminate].
    + discriminate.
    + intros pt. eexists _, _. apply encrypt_message_closed. now right.
  - split; [|split; [|split]].
    + split; [now left | discriminate].
    + split; [congruence | discriminate].
    + discriminate.
    + intros pt. eexists _, _. apply encrypt_message_closed. now right.
  - split; [|split; [|split]].
    + split; [now right | discriminate].
    + split; [reflexivity | discriminate].
    + now intros k' [= <-].
    + intros pt. eexists _, _.
      apply encrypt_message_eq with (k := k); [assumption..|].
      rewrite Hk. cbv; auto.
Qed.

(** X20. The [authenticated] flag of [get_session_info] tells whether the
    channel is open, on every session used through its methods: the call
    changes nothing, reports the state and the number of events logged, and
    its flag is [True] exactly when [encrypt_message] returns a message
    with a ciphertext, and [False] exactly when it returns the error
    dictionary. *)
Theorem session_info_reports_channel :
  forall (E D : bytes -> bytes -> bytes) (str_exn : exn -> string) (w : World),
    operated E D str_exn w ->
    exists (info : list (string * value)) (flag : bool),
      get_session_info w = (Return info, w) /\
      lookup info "state" = Some (VStr (state (self w))) /\
      lookup info "event_count" = Some (VInt (length (events (self w)))) /\
      lookup info "authenticated" = Some (VBool flag) /\
      (flag = true ->
       forall plaintext, exists (message : Dict) (w' : World)
                                (ciphertext_hex : string),
           encrypt_message E plaintext w = (Return message, w') /\
           getitem message "status" = None /\
           getitem message "ciphertext" = Some ciphertext_hex) /\
      (flag = false ->
       forall plaintext,
         encrypt_message E plaintext w =
           (Return [("status", "ERROR");
                    ("message", "Session not authenticated")]%string, w)).
Proof.
  intros E D str_exn w Hw.
  eexists. exists (state (self w) =? "AUTHENTICATED")%string.
  split; [reflexivity|].
  do 3 (split; [reflexivity|]).
  split.
  - intros Hflag plaintext. apply String.eqb_eq in Hflag.
    destruct (operated_phase Hw)
      as [(H & _) | [(H & _) | (_ & _ & (k & Hk & Hlen))]];
      try (rewrite Hflag in H; discriminate H).
    assert (Hkey : In (length k) AES.key_size)
      by (rewrite Hlen; cbv; auto).
    eexists _, _, _.
    split; [apply encrypt_message_eq; eassumption|].
    split; reflexivity.
  - intros Hflag plaintext. apply String.eqb_neq in Hflag.
    apply encrypt_message_closed. now left.
Qed.

(** * The properties on the concrete run *)

Transparent SHA256.sha256 HMAC.hmac.

Lemma xor_block_length (k b : bytes) :
  In (length k) AES.key_size -> length b = AES.block_size ->
  length (xor_block k b) = AES.block_size.
Proof.
  intros Hk Hb. unfold xor_block.
  rewrite xor_bytes_length; [exact Hb|].
  rewrite length_firstn, Hb.
  destruct Hk as [<-|[<-|[<-|[]]]]; reflexivity.
Qed.

Lemma xor_block_cancel (k b : bytes) :
  In (length k) AES.key_size -> length b = AES.block_size ->
  xor_block k (xor_block k b) = b.
Proof.
  intros Hk Hb. unfold xor_block. apply xor_bytes_cancel.
  rewrite length_firstn, Hb.
  destruct Hk as [<-|[<-|[<-|[]]]]; reflexivity.
Qed.

(** The run is the handshake it is meant to be. *)
Example demo_run :
  __init__ "DEVICE_001" "GATEWAY_001" demo_os1
    = (Return demo_session, os demo_fresh) /\
  state (self demo_encapsulated) = "ENCAPSULATED"%string /\
  state (self demo_authenticated) = "AUTHENTICATED"%string /\
  event_types (self demo_authenticated) =
    [Some "PUBLIC_KEY_RECEIVED"; Some "ENCAPSULATED";
     Some "AUTHENTICATED"]%string /\
  length demo_session_key = 32.
Proof. repeat split; vm_compute; reflexivity. Qed.

(** The values of the run, as Python prints them with [.hex()]. *)
Example demo_values :
  hex (fst demo_keypair) =
    "030a11181f262d343b424950575e656c737a81888f969da4abb2b9c0c7ced5dc"%string /\
  hex demo_secret =
    "444f234d8050b7eaa1df1215217ac723858f54b57776023cb762a133aed79240"%string /\
  hex demo_session_key =
    "e19cfaf985c390b54f08361006af4b414af1d41ba40dbc4e717dc5ab21b4a4fd"%string /\
  demo_message =
    [("iv", "a3aab1b8bfc6cdd4dbe2e9f0f7fe050c");
     ("ciphertext",
      "0b5906151a413817fd89bac0b5303a2cfad5ecfc8f92b8b2a2919cc0a38f617d");
     ("hmac",
      "2c1a37d68f56e659998480315c37d357bb0fdc4bf62267d2b655ef7d396f3451");
     ("timestamp", "2024-01-01T00:00:00")]%string.
Proof. repeat split; vm_compute; reflexivity. Qed.

(** The message of the run comes back; with the first bit of its ciphertext
    or of its mac inverted it is refused at the MAC check. *)
Example demo_round_trip :
  decrypt_message xor_block demo_str_exn
    "a3aab1b8bfc6cdd4dbe2e9f0f7fe050c"
    "0b5906151a413817fd89bac0b5303a2cfad5ecfc8f92b8b2a2919cc0a38f617d"
    "2c1a37d68f56e659998480315c37d357bb0fdc4bf62267d2b655ef7d396f3451"
    demo_sent =
  (Return (Some demo_plaintext), logged "MESSAGE_DECRYPTED" demo_sent).
Proof. vm_compute. reflexivity. Qed.

Example demo_tampered_ciphertext :
  decrypt_message xor_block demo_str_exn
    "a3aab1b8bfc6cdd4dbe2e9f0f7fe050c"
    "0a5906151a413817fd89bac0b5303a2cfad5ecfc8f92b8b2a2919cc0a38f617d"
    "2c1a37d68f56e659998480315c37d357bb0fdc4bf62267d2b655ef7d396f3451"
    demo_sent =
  (Return None, logged "DECRYPTION_HMAC_FAILED" demo_sent).
Proof. vm_compute. reflexivity. Qed.

Example demo_tampered_mac :
  decrypt_message xor_block demo_str_exn
    "a3aab1b8bfc6cdd4dbe2e9f0f7fe050c"
    "0b5906151a413817fd89bac0b5303a2cfad5ecfc8f92b8b2a2919cc0a38f617d"
    "2d1a37d68f56e659998480315c37d357bb0fdc4bf62267d2b655ef7d396f3451"
    demo_sent =
  (Return None, logged "DECRYPTION_HMAC_FAILED" demo_sent).
Proof. vm_compute. reflexivity. Qed.

(** HMAC-SHA256 tells the ciphertext of the run from each of the eight
    ciphertexts that differ from it in one bit of the first byte. *)
Example demo_hmac_separates :
  forallb
    (fun i =>
       negb (bytes_eqb
               (HMAC.hmac demo_session_key
                  (flip_bit i (sealed xor_block demo_session_key
                                 (map (entropy demo_os) (seq 96 16))
                                 demo_plaintext)))
               (HMAC.hmac demo_session_key
                  (sealed xor_block demo_session_key
                     (map (entropy demo_os) (seq 96 16)) demo_plaintext))))
    (seq 0 8) = true.
Proof. vm_compute. reflexivity. Qed.

(** C1 on the run: the device keypair, the encapsulation the gateway makes
    next, and the secret the device recovers. *)
Lemma C1_recoverability_witness :
  AuthenticationProtocol.generate_keypair demo_os =
    (Return (fst demo_keypair, snd demo_keypair), demo_os1) /\
  AuthenticationProtocol.encapsulate (snd demo_keypair) (os demo_fresh) =
    (Return (map (entropy demo_os) (seq 64 32), demo_secret),
     draw 32 (os demo_fresh)) /\
  AuthenticationProtocol.decapsulate
    (fst demo_keypair) (map (entropy demo_os) (seq 64 32)) (snd demo_keypair) =
    Some demo_secret.
Proof.
  assert (H1 : AuthenticationProtocol.generate_keypair demo_os =
               (Return (fst demo_keypair, snd demo_keypair), demo_os1))
    by (vm_compute; reflexivity).
  assert (H2 : AuthenticationProtocol.encapsulate
                 (snd demo_keypair) (os demo_fresh) =
               (Return (map (entropy demo_os) (seq 64 32), demo_secret),
                draw 32 (os demo_fresh)))
    by (vm_compute; reflexivity).
  split; [exact H1 | split; [exact H2|]].
  exact (@C1_shared_secret_recoverability
           demo_os demo_os1 (os demo_fresh) (draw 32 (os demo_fresh))
           (fst demo_keypair) (snd demo_keypair)
           (map (entropy demo_os) (seq 64 32)) demo_secret H1 H2).
Defined.

(** C2 on the run, at the session after [start_authentication]. *)
Lemma C2_commitment_witness :
  state (self demo_encapsulated) = "ENCAPSULATED"%string /\
  shared_secret (self demo_encapsulated) = Some demo_secret /\
  let w := demo_encapsulated in
  let material :=
    AuthenticationProtocol.create_session_key demo_secret (session_id (self w))
  in
  let w_ok :=
    logged "AUTHENTICATED"
      {| self :=
           set_state "AUTHENTICATED"
             (set_authentication_tag (Some (snd material))
                (set_session_key (Some (fst material)) (self w)));
         os := os w |} in
  verify_authentication (firstn 16 demo_secret) w = (Return true, w_ok) /\
  state (self w_ok) = "AUTHENTICATED"%string /\
  session_key (self w_ok) = Some (fst material) /\
  authentication_tag (self w_ok) = Some (snd material) /\
  event_types (self w_ok) =
    event_types (self w) ++ [Some "AUTHENTICATED"%string] /\
  (forall c, verify_authentication c w_ok = (Return false, w_ok)) /\
  (forall c,
      length c = 16 -> c <> firstn 16 demo_secret ->
      verify_authentication c w =
        (Return false, logged "AUTHENTICATION_FAILED" w) /\
      state (self (logged "AUTHENTICATION_FAILED" w)) =
        "ENCAPSULATED"%string /\
      event_types (self (logged "AUTHENTICATION_FAILED" w)) =
        event_types (self w) ++ [Some "AUTHENTICATION_FAILED"%string]).
Proof.
  assert (H1 : state (self demo_encapsulated) = "ENCAPSULATED"%string)
    by (vm_compute; reflexivity).
  assert (H2 : shared_secret (self demo_encapsulated) = Some demo_secret)
    by (vm_compute; reflexivity).
  exact (conj H1 (conj H2
           (@C2_commitment_verification demo_encapsulated demo_secret
              H1 H2))).
Defined.

(** C3 on the run, for a plaintext of exactly one block. *)
Lemma C3_round_trip_witness :
  state (self demo_authenticated) = "AUTHENTICATED"%string /\
  session_key (self demo_authenticated) = Some demo_session_key /\
  In (length demo_session_key) AES.key_size /\
  exists (message : Dict) (w1 : World)
         (iv_hex ciphertext_hex hmac_hex : string),
    encrypt_message xor_block demo_plaintext demo_authenticated =
      (Return message, w1) /\
    self w1 = self demo_authenticated /\
    getitem message "iv" = Some iv_hex /\
    getitem message "ciphertext" = Some ciphertext_hex /\
    getitem message "hmac" = Some hmac_hex /\
    decrypt_message xor_block demo_str_exn iv_hex ciphertext_hex hmac_hex w1 =
      (Return (Some demo_plaintext), logged "MESSAGE_DECRYPTED" w1) /\
    (forall w2 : World,
        state (self w2) = "AUTHENTICATED"%string ->
        session_key (self w2) = Some demo_session_key ->
        decrypt_message xor_block demo_str_exn
          iv_hex ciphertext_hex hmac_hex w2 =
          (Return (Some demo_plaintext), logged "MESSAGE_DECRYPTED" w2)).
Proof.
  assert (H1 : state (self demo_authenticated) = "AUTHENTICATED"%string)
    by (vm_compute; reflexivity).
  assert (H2 : session_key (self demo_authenticated) = Some demo_session_key)
    by (vm_compute; reflexivity).
  assert (H3 : In (length demo_session_key) AES.key_size)
    by (right; right; left; vm_compute; reflexivity).
  exact (conj H1 (conj H2 (conj H3
           (@C3_encrypt_decrypt_round_trip
              xor_block xor_block demo_str_exn
              xor_block_length xor_block_cancel
              demo_authenticated demo_session_key demo_plaintext
              H1 H2 H3)))).
Defined.

(** X21 on the run, for the message [encrypt_message] returned. *)
Lemma tampered_mac_rejected_witness :
  state (self demo_authenticated) = "AUTHENTICATED"%string /\
  session_key (self demo_authenticated) = Some demo_session_key /\
  encrypt_message xor_block demo_plaintext demo_authenticated =
    (Return demo_message, demo_sent) /\
  exists iv ciphertext mac : bytes,
    getitem demo_message "iv" = Some (hex iv) /\
    getitem demo_message "ciphertext" = Some (hex ciphertext) /\
    getitem demo_message "hmac" = Some (hex mac) /\
    mac = HMAC.hmac demo_session_key ciphertext /\
    self demo_sent = self demo_authenticated /\
    (forall i,
        i < 8 * length mac ->
        decrypt_message xor_block demo_str_exn
          (hex iv) (hex ciphertext) (hex (flip_bit i mac)) demo_sent =
          (Return None, logged "DECRYPTION_HMAC_FAILED" demo_sent)) /\
    (forall iv' ciphertext' mac' : bytes,
        mac' <> HMAC.hmac demo_session_key ciphertext' ->
        decrypt_message xor_block demo_str_exn
          (hex iv') (hex ciphertext') (hex mac') demo_sent =
          (Return None, logged "DECRYPTION_HMAC_FAILED" demo_sent)).
Proof.
  assert (H1 : state (self demo_authenticated) = "AUTHENTICATED"%string)
    by (vm_compute; reflexivity).
  assert (H2 : session_key (self demo_authenticated) = Some demo_session_key)
    by (vm_compute; reflexivity).
  assert (H3 : encrypt_message xor_block demo_plaintext demo_authenticated =
               (Return demo_message, demo_sent))
    by (vm_compute; reflexivity).
  exact (conj H1 (conj H2 (conj H3
           (@tampered_mac_rejected
              xor_block xor_block demo_str_exn
              demo_authenticated demo_sent demo_session_key demo_plaintext
              demo_message H1 H2 H3)))).
Defined.

(** C5 on the run, at the session that is only [ENCAPSULATED]. *)
Lemma C5_gating_witness :
  state (self demo_encapsulated) <> "AUTHENTICATED"%string /\
  (forall plaintext,
      encrypt_message xor_block plaintext demo_encapsulated =
        (Return [("status", "ERROR");
                 ("message", "Session not authenticated")]%string,
         demo_encapsulated)) /\
  (forall iv_hex ciphertext_hex hmac_hex,
      decrypt_message xor_block demo_str_exn
        iv_hex ciphertext_hex hmac_hex demo_encapsulated =
        (Return None, demo_encapsulated)).
Proof.
  assert (H : state (self demo_encapsulated) <> "AUTHENTICATED"%string)
    by discriminate.
  exact (conj H
           (@C5_authentication_gating
              xor_block xor_block demo_str_exn demo_encapsulated H)).
Defined.

Lemma demo_reachable : reachable demo_authenticated.
Proof.
  apply reachable_step with (w := demo_encapsulated).
  - apply reachable_step with (w := demo_fresh).
    + apply reachable_init
        with (device_id := "DEVICE_001"%string)
             (gateway_id := "GATEWAY_001"%string) (o := demo_os1).
      reflexivity.
    + apply step_start_authentication
        with (device_public_key := snd demo_keypair)
             (r := fst (start_authentication (snd demo_keypair) demo_fresh)).
      apply surjective_pairing.
  - apply step_verify_authentication
      with (device_commitment := firstn 16 demo_secret)
           (r := fst (verify_authentication (firstn 16 demo_secret)
                        demo_encapsulated)).
    apply surjective_pairing.
Qed.

(** C7 on the run, at the authenticated session. *)
Lemma C7_population_witness :
  reachable demo_authenticated /\
  (shared_secret (self demo_authenticated) <> None <->
     state (self demo_authenticated) = "ENCAPSULATED"%string \/
     state (self demo_authenticated) = "AUTHENTICATED"%string) /\
  (session_key (self demo_authenticated) <> None <->
     state (self demo_authenticated) = "AUTHENTICATED"%string).
Proof.
  exact (conj demo_reachable
           (@C7_population_invariant demo_authenticated demo_reachable)).
Defined.

(** X1 on the run, from the fresh session. *)
Lemma handshake_agreement_witness :
  state (self demo_fresh) = "INITIALIZED"%string /\
  exists (response : Dict) (w1 w2 : World) (ciphertext secret : bytes),
    start_authentication (snd demo_keypair) demo_fresh =
      (Return response, w1) /\
    getitem response "status" = Some "OK"%string /\
    getitem response "session_id" = Some (session_id (self demo_fresh)) /\
    getitem response "ciphertext" = Some (hex ciphertext) /\
    getitem response "commitment" = Some (hex (firstn 16 secret)) /\
    length ciphertext = 32 /\
    AuthenticationProtocol.decapsulate
      (fst demo_keypair) ciphertext (snd demo_keypair) = Some secret /\
    verify_authentication (firstn 16 secret) w1 = (Return true, w2) /\
    state (self w2) = "AUTHENTICATED"%string /\
    session_key (self w2) =
      Some (fst (AuthenticationProtocol.create_session_key
                   secret (session_id (self demo_fresh)))).
Proof.
  assert (H : state (self demo_fresh) = "INITIALIZED"%string)
    by reflexivity.
  exact (conj H
           (@handshake_agreement
              demo_fresh (fst demo_keypair) (snd demo_keypair) H)).
Defined.

Lemma demo_step : step demo_encapsulated demo_authenticated.
Proof.
  apply step_verify_authentication
    with (device_commitment := firstn 16 demo_secret)
         (r := fst (verify_authentication (firstn 16 demo_secret)
                      demo_encapsulated)).
  apply surjective_pairing.
Qed.

(** X2 on the run, for the verification step. *)
Lemma state_never_goes_back_witness :
  step demo_encapsulated demo_authenticated /\
  state_rank (state (self demo_encapsulated)) <=
    state_rank (state (self demo_authenticated)).
Proof.
  exact (conj demo_step
           (@state_never_goes_back
              demo_encapsulated demo_authenticated demo_step)).
Defined.

(** X3 on the run, for the verification step. *)
Lemma event_log_append_only_witness :
  step demo_encapsulated demo_authenticated /\
  exists new : list Dict,
    events (self demo_authenticated) =
      events (self demo_encapsulated) ++ new.
Proof.
  exact (conj demo_step
           (@event_log_append_only
              demo_encapsulated demo_authenticated demo_step)).
Defined.

(** X4 on the run. *)
Lemma reachable_session_key_length_witness :
  reachable demo_authenticated /\
  session_key (self demo_authenticated) = Some demo_session_key /\
  length demo_session_key = 32.
Proof.
  assert (H : session_key (self demo_authenticated) = Some demo_session_key)
    by (vm_compute; reflexivity).
  exact (conj demo_reachable (conj H
           (@reachable_session_key_length
              demo_authenticated demo_session_key demo_reachable H))).
Defined.

(** X5 on the run. *)
Lemma reachable_round_trip_witness :
  reachable demo_authenticated /\
  state (self demo_authenticated) = "AUTHENTICATED"%string /\
  exists (message : Dict) (w1 : World)
         (iv_hex ciphertext_hex hmac_hex : string),
    encrypt_message xor_block demo_plaintext demo_authenticated =
      (Return message, w1) /\
    getitem message "iv" = Some iv_hex /\
    getitem message "ciphertext" = Some ciphertext_hex /\
    getitem message "hmac" = Some hmac_hex /\
    decrypt_message xor_block demo_str_exn iv_hex ciphertext_hex hmac_hex w1 =
      (Return (Some demo_plaintext), logged "MESSAGE_DECRYPTED" w1).
Proof.
  assert (H : state (self demo_authenticated) = "AUTHENTICATED"%string)
    by (vm_compute; reflexivity).
  exact (conj demo_reachable (conj H
           (@reachable_round_trip
              xor_block xor_block demo_str_exn
              xor_block_length xor_block_cancel
              demo_authenticated demo_plaintext demo_reachable H))).
Defined.

(** X6 on the run. *)
Lemma encrypted_message_lengths_witness :
  state (self demo_authenticated) = "AUTHENTICATED"%string /\
  session_key (self demo_authenticated) = Some demo_session_key /\
  In (length demo_session_key) AES.key_size /\
  exists (iv ciphertext mac : bytes) (stamp : string) (w1 : World),
    encrypt_message xor_block demo_plaintext demo_authenticated =
      (Return [("iv", hex iv); ("ciphertext", hex ciphertext);
               ("hmac", hex mac); ("timestamp", stamp)]%string, w1) /\
    length iv = 16 /\
    length ciphertext = 16 * (length demo_plaintext / 16 + 1) /\
    length mac = 32.
Proof.
  assert (H1 : state (self demo_authenticated) = "AUTHENTICATED"%string)
    by (vm_compute; reflexivity).
  assert (H2 : session_key (self demo_authenticated) = Some demo_session_key)
    by (vm_compute; reflexivity).
  assert (H3 : In (length demo_session_key) AES.key_size)
    by (right; right; left; vm_compute; reflexivity).
  exact (conj H1 (conj H2 (conj H3
           (@encrypted_message_lengths
              xor_block demo_authenticated demo_session_key demo_plaintext
              (fun b => @xor_block_length demo_session_key b H3)
              H1 H2 H3)))).
Defined.

(** C9 as the specification words it fails: an empty ciphertext and an empty
    public key have neither 32 nor 64 bytes, and [decapsulate] returns a
    shared secret for them, the SHA-256 of the SHA-256 of the empty
    string. *)
Lemma C9_malformed_lengths_accepted :
  length (@nil byte) <> 32 /\
  length (@nil byte) <> 64 /\
  option_map hex (AuthenticationProtocol.decapsulate [] [] []) =
    Some "5df6e0e2761359d30a8275058e299fcc0381534545f55cf43e41983f5d4c9456"%string.
Proof.
  split; [discriminate | split; [discriminate|]].
  vm_compute. reflexivity.
Qed.

(** ** The further properties on the run *)

(** The run continued: the message is sent and received. *)
Lemma demo_operated :
  operated xor_block xor_block demo_str_exn
    (logged "MESSAGE_DECRYPTED" demo_sent).
Proof.
  apply operated_decrypt
    with (w := demo_sent)
         (iv_hex := "a3aab1b8bfc6cdd4dbe2e9f0f7fe050c"%string)
         (ciphertext_hex :=
            "0b5906151a413817fd89bac0b5303a2cfad5ecfc8f92b8b2a2919cc0a38f617d"%string)
         (hmac_hex :=
            "2c1a37d68f56e659998480315c37d357bb0fdc4bf62267d2b655ef7d396f3451"%string)
         (r := Return (Some demo_plaintext)).
  - apply operated_encrypt
      with (w := demo_authenticated) (plaintext := demo_plaintext)
           (r := fst (encrypt_message xor_block demo_plaintext
                        demo_authenticated)).
    + apply operated_reachable. exact demo_reachable.
    + apply surjective_pairing.
  - exact demo_round_trip.
Qed.

(** A session of the fallback module, after one call of each method. *)
Lemma demo_fallback_reachable :
  fallback_reachable xor_block xor_block demo_str_exn demo_fresh.
Proof.
  assert (H0 : fallback_reachable xor_block xor_block demo_str_exn demo_fresh).
  { apply fallback_reachable_init
      with (device_id := "DEVICE_001"%string)
           (gateway_id := "GATEWAY_001"%string) (o := demo_os1).
    reflexivity. }
  apply fallback_reachable_decrypt
    with (w := demo_fresh) (iv_hex := ""%string) (ciphertext_hex := ""%string)
         (hmac_hex := ""%string) (r := Return None).
  - apply fallback_reachable_encrypt
      with (w := demo_fresh) (plaintext := demo_plaintext)
           (r := Return [("status", "ERROR");
                         ("message", "Session not authenticated")]%string).
    + exact H0.
    + vm_compute. reflexivity.
  - vm_compute. reflexivity.
Qed.

(** X8 on the run: an IV that is not hexadecimal text. *)
Lemma malformed_hex_rejected_witness :
  state (self demo_authenticated) = "AUTHENTICATED"%string /\
  session_key (self demo_authenticated) = Some demo_session_key /\
  (fromhex "zz" = Raise (ValueError_fromhex 0) \/
   (exists iv, fromhex "zz" = Return iv /\
               fromhex "00" = Raise (ValueError_fromhex 0)) \/
   (exists iv ct, fromhex "zz" = Return iv /\
                  fromhex "00" = Return ct /\
                  fromhex "00" = Raise (ValueError_fromhex 0))) /\
  decrypt_message xor_block demo_str_exn "zz" "00" "00" demo_authenticated =
    (Return None,
     logged ("DECRYPTION_ERROR: " ++ demo_str_exn (ValueError_fromhex 0))
       demo_authenticated).
Proof.
  assert (H1 : state (self demo_authenticated) = "AUTHENTICATED"%string)
    by (vm_compute; reflexivity).
  assert (H2 : session_key (self demo_authenticated) = Some demo_session_key)
    by (vm_compute; reflexivity).
  assert (H3 : fromhex "zz" = Raise (ValueError_fromhex 0) \/
               (exists iv, fromhex "zz" = Return iv /\
                           fromhex "00" = Raise (ValueError_fromhex 0)) \/
               (exists iv ct, fromhex "zz" = Return iv /\
                              fromhex "00" = Return ct /\
                              fromhex "00" = Raise (ValueError_fromhex 0)))
    by (left; vm_compute; reflexivity).
  exact (conj H1 (conj H2 (conj H3
           (@malformed_hex_rejected
              xor_block demo_str_exn demo_authenticated demo_session_key
              "zz" "00" "00" (ValueError_fromhex 0) H1 H2 H3)))).
Defined.

(** X9 on the run: an empty IV with an empty ciphertext and its mac. *)
Lemma malformed_message_rejected_witness :
  state (self demo_authenticated) = "AUTHENTICATED"%string /\
  session_key (self demo_authenticated) = Some demo_session_key /\
  (length (@nil byte) <> 16 \/ @nil byte = [] \/
   length (@nil byte) mod 16 <> 0) /\
  exists e : exn,
    decrypt_message xor_block demo_str_exn
      (hex []) (hex []) (hex (HMAC.hmac demo_session_key []))
      demo_authenticated =
      (Return None,
       logged ("DECRYPTION_ERROR: " ++ demo_str_exn e) demo_authenticated).
Proof.
  assert (H1 : state (self demo_authenticated) = "AUTHENTICATED"%string)
    by (vm_compute; reflexivity).
  assert (H2 : session_key (self demo_authenticated) = Some demo_session_key)
    by (vm_compute; reflexivity).
  assert (H3 : length (@nil byte) <> 16 \/ @nil byte = [] \/
               length (@nil byte) mod 16 <> 0)
    by (left; discriminate).
  exact (conj H1 (conj H2 (conj H3
           (@malformed_message_rejected
              xor_block demo_str_exn demo_authenticated demo_session_key
              [] [] H1 H2 H3)))).
Defined.

(** X13 on the run. *)
Lemma fallback_interoperates_witness :
  (forall k b,
      In (length k) AES.key_size -> length b = AES.block_size ->
      length (xor_block k b) = AES.block_size) /\
  (forall k b,
      In (length k) AES.key_size -> length b = AES.block_size ->
      xor_block k (xor_block k b) = b) /\
  state (self demo_authenticated) = "AUTHENTICATED"%string /\
  session_key (self demo_authenticated) = Some demo_session_key /\
  In (length demo_session_key) AES.key_size /\
  exists (message : Dict) (w1 : World)
         (iv_hex ciphertext_hex hmac_hex : string),
    encrypt_message xor_block demo_plaintext demo_authenticated =
      (Return message, w1) /\
    FallbackSession.encrypt_message xor_block demo_str_exn demo_plaintext
      demo_authenticated = (Return message, w1) /\
    getitem message "iv" = Some iv_hex /\
    getitem message "ciphertext" = Some ciphertext_hex /\
    getitem message "hmac" = Some hmac_hex /\
    (forall w2 : World,
        state (self w2) = "AUTHENTICATED"%string ->
        session_key (self w2) = Some demo_session_key ->
        decrypt_message xor_block demo_str_exn
          iv_hex ciphertext_hex hmac_hex w2 =
          (Return (Some demo_plaintext), logged "MESSAGE_DECRYPTED" w2) /\
        FallbackSession.decrypt_message xor_block
          iv_hex ciphertext_hex hmac_hex w2 =
          (Return (Some demo_plaintext), w2)).
Proof.
  assert (H1 : state (self demo_authenticated) = "AUTHENTICATED"%string)
    by (vm_compute; reflexivity).
  assert (H2 : session_key (self demo_authenticated) = Some demo_session_key)
    by (vm_compute; reflexivity).
  assert (H3 : In (length demo_session_key) AES.key_size)
    by (right; right; left; vm_compute; reflexivity).
  exact (conj xor_block_length (conj xor_block_cancel
           (conj H1 (conj H2 (conj H3
              (@fallback_interoperates
                 xor_block xor_block demo_str_exn
                 xor_block_length xor_block_cancel
                 demo_authenticated demo_session_key demo_plaintext
                 H1 H2 H3)))))).
Defined.

(** X14 on a session of the fallback module. *)
Lemma fallback_session_never_authenticated_witness :
  fallback_reachable xor_block xor_block demo_str_exn demo_fresh /\
  state (self demo_fresh) = "INITIALIZED"%string /\
  session_key (self demo_fresh) = None /\
  events (self demo_fresh) = [] /\
  (forall plaintext,
      FallbackSession.encrypt_message xor_block demo_str_exn plaintext
        demo_fresh =
        (Return [("status", "ERROR");
                 ("message", "Session not authenticated")]%string,
         demo_fresh)) /\
  (forall iv_hex ciphertext_hex hmac_hex,
      FallbackSession.decrypt_message xor_block
        iv_hex ciphertext_hex hmac_hex demo_fresh =
        (Return None, demo_fresh)).
Proof.
  exact (conj demo_fallback_reachable
           (@fallback_session_never_authenticated
              xor_block xor_block demo_str_exn demo_fresh
              demo_fallback_reachable)).
Defined.

(** X15 on the run: the plaintext is one block long. *)
Lemma iv_is_not_authenticated_witness :
  (forall k b,
      In (length k) AES.key_size -> length b = AES.block_size ->
      length (xor_block k b) = AES.block_size) /\
  (forall k b,
      In (length k) AES.key_size -> length b = AES.block_size ->
      xor_block k (xor_block k b) = b) /\
  state (self demo_authenticated) = "AUTHENTICATED"%string /\
  session_key (self demo_authenticated) = Some demo_session_key /\
  In (length demo_session_key) AES.key_size /\
  16 <= length demo_plaintext /\
  exists (iv ciphertext mac : bytes) (stamp : string) (w1 : World),
    encrypt_message xor_block demo_plaintext demo_authenticated =
      (Return [("iv", hex iv); ("ciphertext", hex ciphertext);
               ("hmac", hex mac); ("timestamp", stamp)]%string, w1) /\
    forall iv' : bytes,
      length iv' = 16 ->
      decrypt_message xor_block demo_str_exn
        (hex iv') (hex ciphertext) (hex mac) w1 =
        (Return
           (Some (xor_bytes (xor_bytes (firstn 16 demo_plaintext) iv) iv'
                    ++ skipn 16 demo_plaintext)),
         logged "MESSAGE_DECRYPTED" w1) /\
      (iv' <> iv ->
       xor_bytes (xor_bytes (firstn 16 demo_plaintext) iv) iv'
         ++ skipn 16 demo_plaintext <> demo_plaintext).
Proof.
  assert (H1 : state (self demo_authenticated) = "AUTHENTICATED"%string)
    by (vm_compute; reflexivity).
  assert (H2 : session_key (self demo_authenticated) = Some demo_session_key)
    by (vm_compute; reflexivity).
  assert (H3 : In (length demo_session_key) AES.key_size)
    by (right; right; left; vm_compute; reflexivity).
  assert (H4 : 16 <= length demo_plaintext)
    by (vm_compute; apply le_n).
  exact (conj xor_block_length (conj xor_block_cancel
           (conj H1 (conj H2 (conj H3 (conj H4
              (@iv_is_not_authenticated
                 xor_block xor_block demo_str_exn
                 xor_block_length xor_block_cancel
                 demo_authenticated demo_session_key demo_plaintext
                 H1 H2 H3 H4))))))).
Defined.

(** X16 on the run: the message of the run, received twice. *)
Lemma accepted_message_replays_witness :
  decrypt_message xor_block demo_str_exn
    "a3aab1b8bfc6cdd4dbe2e9f0f7fe050c"
    "0b5906151a413817fd89bac0b5303a2cfad5ecfc8f92b8b2a2919cc0a38f617d"
    "2c1a37d68f56e659998480315c37d357bb0fdc4bf62267d2b655ef7d396f3451"
    demo_sent =
    (Return (Some demo_plaintext), logged "MESSAGE_DECRYPTED" demo_sent) /\
  logged "MESSAGE_DECRYPTED" demo_sent = logged "MESSAGE_DECRYPTED" demo_sent /\
  decrypt_message xor_block demo_str_exn
    "a3aab1b8bfc6cdd4dbe2e9f0f7fe050c"
    "0b5906151a413817fd89bac0b5303a2cfad5ecfc8f92b8b2a2919cc0a38f617d"
    "2c1a37d68f56e659998480315c37d357bb0fdc4bf62267d2b655ef7d396f3451"
    (logged "MESSAGE_DECRYPTED" demo_sent) =
    (Return (Some demo_plaintext),
     logged "MESSAGE_DECRYPTED" (logged "MESSAGE_DECRYPTED" demo_sent)) /\
  (forall w2 : World,
      state (self w2) = state (self demo_sent) ->
      session_key (self w2) = session_key (self demo_sent) ->
      decrypt_message xor_block demo_str_exn
        "a3aab1b8bfc6cdd4dbe2e9f0f7fe050c"
        "0b5906151a413817fd89bac0b5303a2cfad5ecfc8f92b8b2a2919cc0a38f617d"
        "2c1a37d68f56e659998480315c37d357bb0fdc4bf62267d2b655ef7d396f3451"
        w2 =
        (Return (Some demo_plaintext), logged "MESSAGE_DECRYPTED" w2)).
Proof.
  exact (conj demo_round_trip
           (@accepted_message_replays
              xor_block demo_str_exn demo_sent
              (logged "MESSAGE_DECRYPTED" demo_sent)
              "a3aab1b8bfc6cdd4dbe2e9f0f7fe050c"
              "0b5906151a413817fd89bac0b5303a2cfad5ecfc8f92b8b2a2919cc0a38f617d"
              "2c1a37d68f56e659998480315c37d357bb0fdc4bf62267d2b655ef7d396f3451"
              demo_plaintext demo_round_trip)).
Defined.

(** X17 on the run: an empty commitment, then the plaintext of the run as a
    commitment, then the right one. *)
Lemma failed_verification_can_be_retried_witness :
  state (self demo_encapsulated) = "ENCAPSULATED"%string /\
  shared_secret (self demo_encapsulated) = Some demo_secret /\
  forallb (fun c => negb (bytes_eqb c (firstn 16 demo_secret)))
    [[]; demo_plaintext] = true /\
  state (self (verify_each [[]; demo_plaintext] demo_encapsulated)) =
    "ENCAPSULATED"%string /\
  shared_secret (self (verify_each [[]; demo_plaintext] demo_encapsulated)) =
    Some demo_secret /\
  session_key (self (verify_each [[]; demo_plaintext] demo_encapsulated)) =
    session_key (self demo_encapsulated) /\
  event_types (self (verify_each [[]; demo_plaintext] demo_encapsulated)) =
    event_types (self demo_encapsulated)
      ++ repeat (Some "AUTHENTICATION_FAILED"%string)
           (length [[]; demo_plaintext]) /\
  exists w' : World,
    verify_authentication (firstn 16 demo_secret)
      (verify_each [[]; demo_plaintext] demo_encapsulated) =
      (Return true, w') /\
    state (self w') = "AUTHENTICATED"%string /\
    session_key (self w') =
      Some (fst (AuthenticationProtocol.create_session_key
                   demo_secret (session_id (self demo_encapsulated)))).
Proof.
  assert (H1 : state (self demo_encapsulated) = "ENCAPSULATED"%string)
    by (vm_compute; reflexivity).
  assert (H2 : shared_secret (self demo_encapsulated) = Some demo_secret)
    by (vm_compute; reflexivity).
  assert (H3 : forallb (fun c => negb (bytes_eqb c (firstn 16 demo_secret)))
                 [[]; demo_plaintext] = true)
    by (vm_compute; reflexivity).
  exact (conj H1 (conj H2 (conj H3
           (@failed_verification_can_be_retried
              demo_encapsulated demo_secret [[]; demo_plaintext]
              H1 H2 H3)))).
Defined.

(** X18 with the block transformation, the clock and the randomness of the
    run. *)
Lemma protocol_run_succeeds_witness :
  (forall k b,
      In (length k) AES.key_size -> length b = AES.block_size ->
      length (xor_block k b) = AES.block_size) /\
  (forall k b,
      In (length k) AES.key_size -> length b = AES.block_size ->
      xor_block k (xor_block k b) = b) /\
  exists (private_key public_key : bytes) (o1 : OS)
         (s : DeviceAuthenticationSession) (o2 : OS)
         (response : Dict) (w1 : World)
         (ciphertext secret : bytes) (w2 : World)
         (message : Dict) (w3 : World)
         (iv_hex ciphertext_hex hmac_hex : string) (w4 : World),
    AuthenticationProtocol.generate_keypair demo_os =
      (Return (private_key, public_key), o1) /\
    length public_key = 64 /\
    firstn 32 public_key = SHA256.sha256 private_key /\
    __init__ "DEVICE_001" "GATEWAY_001" o1 = (Return s, o2) /\
    start_authentication public_key {| self := s; os := o2 |} =
      (Return response, w1) /\
    getitem response "status" = Some "OK"%string /\
    getitem response "ciphertext" = Some (hex ciphertext) /\
    fromhex (hex ciphertext) = Return ciphertext /\
    AuthenticationProtocol.decapsulate private_key ciphertext public_key =
      Some secret /\
    length secret = 32 /\
    verify_authentication (firstn 16 secret) w1 = (Return true, w2) /\
    encrypt_message xor_block demo_plaintext w2 = (Return message, w3) /\
    getitem message "iv" = Some iv_hex /\
    getitem message "ciphertext" = Some ciphertext_hex /\
    getitem message "hmac" = Some hmac_hex /\
    decrypt_message xor_block demo_str_exn
      iv_hex ciphertext_hex hmac_hex w3 =
      (Return (Some demo_plaintext), w4) /\
    event_types (self w4) =
      [Some "PUBLIC_KEY_RECEIVED"; Some "ENCAPSULATED";
       Some "AUTHENTICATED"; Some "MESSAGE_DECRYPTED"]%string.
Proof.
  exact (conj xor_block_length (conj xor_block_cancel
           (@protocol_run_succeeds
              xor_block xor_block demo_str_exn
              xor_block_length xor_block_cancel
              demo_os "DEVICE_001"%string "GATEWAY_001"%string
              demo_plaintext))).
Defined.

(** X19 on the run, after the message has been sent and received. *)
Lemma invariant_under_all_methods_witness :
  operated xor_block xor_block demo_str_exn
    (logged "MESSAGE_DECRYPTED" demo_sent) /\
  (shared_secret (self (logged "MESSAGE_DECRYPTED" demo_sent)) <> None <->
     state (self (logged "MESSAGE_DECRYPTED" demo_sent)) =
       "ENCAPSULATED"%string \/
     state (self (logged "MESSAGE_DECRYPTED" demo_sent)) =
       "AUTHENTICATED"%string) /\
  (session_key (self (logged "MESSAGE_DECRYPTED" demo_sent)) <> None <->
     state (self (logged "MESSAGE_DECRYPTED" demo_sent)) =
       "AUTHENTICATED"%string) /\
  (forall k,
      session_key (self (logged "MESSAGE_DECRYPTED" demo_sent)) = Some k ->
      length k = 32) /\
  (forall plaintext, exists (message : Dict) (w' : World),
      encrypt_message xor_block plaintext
        (logged "MESSAGE_DECRYPTED" demo_sent) = (Return message, w')).
Proof.
  exact (conj demo_operated
           (@invariant_under_all_methods
              xor_block xor_block demo_str_exn
              (logged "MESSAGE_DECRYPTED" demo_sent) demo_operated)).
Defined.

(** X20 on the run, after the message has been sent and received. *)
Lemma session_info_reports_channel_witness :
  operated xor_block xor_block demo_str_exn
    (logged "MESSAGE_DECRYPTED" demo_sent) /\
  exists (info : list (string * value)) (flag : bool),
    get_session_info (logged "MESSAGE_DECRYPTED" demo_sent) =
      (Return info, logged "MESSAGE_DECRYPTED" demo_sent) /\
    lookup info "state" =
      Some (VStr (state (self (logged "MESSAGE_DECRYPTED" demo_sent)))) /\
    lookup info "event_count" =
      Some (VInt (length (events
                            (self (logged "MESSAGE_DECRYPTED" demo_sent))))) /\
    lookup info "authenticated" = Some (VBool flag) /\
    (flag = true ->
     forall plaintext, exists (message : Dict) (w' : World)
                              (ciphertext_hex : string),
         encrypt_message xor_block plaintext
           (logged "MESSAGE_DECRYPTED" demo_sent) = (Return message, w') /\
         getitem message "status" = None /\
         getitem message "ciphertext" = Some ciphertext_hex) /\
    (flag = false ->
     forall plaintext,
       encrypt_message xor_block plaintext
         (logged "MESSAGE_DECRYPTED" demo_sent) =
         (Return [("status", "ERROR");
                  ("message", "Session not authenticated")]%string,
          logged "MESSAGE_DECRYPTED" demo_sent)).
Proof.
  exact (conj demo_operated
           (@session_info_reports_channel
              xor_block xor_block demo_str_exn
              (logged "MESSAGE_DECRYPTED" demo_sent) demo_operated)).
Defined.
